(** * Verification of create_snowflake_account_integration.py

    A shallow embedding of the provisioning script
    [src/create_snowflake_account_integration.py] and the proofs of the
    properties stated for it.

    The script is a sequence of HTTP calls with printing, early exits and
    one in-place update of a copied dictionary.  It is embedded as a state
    and exception monad over
    - a heap of dictionary objects (for the aliasing of [payload] and
      [debug_payload]),
    - the text written to standard output,
    - the log of HTTP requests issued,
    and it reads its surroundings (environment variable, key file, server
    answers) from a [world] record. *)

From Stdlib Require Import Floats.
From stdpp Require Import base list strings pretty.

Set Warnings "-register-all".

Local Open Scope Z_scope.
Local Open Scope string_scope.
Local Open Scope list_scope.

(** ** Python values *)

(** The values [response.json()] can return, and the payloads built from
    them.  A dictionary keeps its insertion order, so it is an association
    list; keys of a Python dictionary are unique, and [dict_get] reads the
    first binding.  A str is a [string], one [ascii] per character. *)
Inductive pyval :=
  | PNone
  | PBool (b : bool)
  | PInt (z : Z)
  | PFloat (f : float)
  | PStr (s : string)
  | PList (l : list pyval)
  | PDict (d : list (string * pyval)).

Definition dict := list (string * pyval).

(** [assoc k d]: the binding of [k] in an association list. *)
Fixpoint assoc {V : Type} (k : string) (d : list (string * V)) : option V :=
  match d with
  | [] => None
  | (k', v) :: d' => if String.eqb k' k then Some v else assoc k d'
  end.

(** [d.get(k)] on a dict: the value, or [None]. *)
Definition dict_get (d : dict) (k : string) : pyval :=
  default PNone (assoc k d).

(** [bool(v)], as tested by [if v] and [if not v]. *)
Definition truthy (v : pyval) : bool :=
  match v with
  | PNone => false
  | PBool b => b
  | PInt z => negb (Z.eqb z 0)
  | PFloat f => negb (PrimFloat.eqb f PrimFloat.zero)
  | PStr s => match s with EmptyString => false | _ => true end
  | PList l => match l with [] => false | _ => true end
  | PDict d => match d with [] => false | _ => true end
  end.

(** Truth value of a configuration string ([if INSTANCE], [if not
    WAREHOUSE_NAME]). *)
Definition nonempty (s : string) : bool :=
  match s with EmptyString => false | _ => true end.

(** [v == name] for a str [name]: values of another type are unequal. *)
Definition eq_str (v : pyval) (name : string) : bool :=
  match v with
  | PStr s => String.eqb s name
  | _ => false
  end.

(** Decimal text of an integer, [str(n)]. *)
Definition str_of_int (z : Z) : string := pretty z.
Arguments str_of_int : simpl never.

(** [s * n] *)
Fixpoint str_repeat (s : string) (n : nat) : string :=
  match n with
  | O => ""
  | S n' => s +:+ str_repeat s n'
  end.

(** The newline character of the script's ["\n"]. *)
Definition nl : string := String (Ascii.ascii_of_nat 10) "".

(** ** The world the script runs in *)

Inductive http_method := GET | POST | PUT.

Record request := {
  method : http_method;
  url : string;
  headers : list (string * option string);
  (** the value given to [json.dumps] for [data=]; [None] for a GET *)
  data : option pyval
}.

(** A [requests.Response]: [json] is what [response.json()] returns,
    [None] when the body is not JSON and the call raises. *)
Record response := {
  status_code : Z;
  text : string;
  json : option pyval
}.

Inductive http_result :=
  | Answer (r : response)
  | NoAnswer.            (* requests raises: no connection, bad URL, ... *)

Inductive file_result :=
  | Contents (s : string)
  | FileNotFound
  | PermissionDenied
  | OtherFailure (msg : string).

Record world := {
  (** [repr] of floats, lists and dicts, an interpreter built-in *)
  py_repr : pyval -> string;
  (** [os.getenv], after [load_dotenv] *)
  getenv : string -> option string;
  (** [open(path, 'r').read()] *)
  read_file : string -> file_result;
  (** the server: requests.post / get / put *)
  send : request -> http_result
}.

(** [str(v)], as an f-string interpolates it. *)
Definition py_str (w : world) (v : pyval) : string :=
  match v with
  | PNone => "None"
  | PBool true => "True"
  | PBool false => "False"
  | PInt z => str_of_int z
  | PStr s => s
  | _ => py_repr w v
  end.

(** The module-level settings of the script. *)
Record config := {
  INSTANCE : string;
  ACCOUNT_NAME : string;
  DISPLAY_NAME : string;
  SNOWFLAKE_ACCOUNT : string;
  SNOWFLAKE_USERNAME : string;
  SNOWFLAKE_ROLE : string;
  PRIVATE_KEY_FILE : string;
  PASSPHRASE : string;
  INTEGRATION_FRIENDLY_NAME : string;
  INTEGRATION_DESCRIPTION : string;
  WAREHOUSE_NAME : string;
  WAREHOUSE_ACTIVITIES : list string;
  EXISTING_ACCOUNT_ID : string
}.

(** ** Heap of dictionary objects *)

Definition loc := nat.

(** What a dictionary slot holds: an immutable value or a reference to
    another dictionary object. *)
Inductive hval :=
  | HVal (v : pyval)
  | HRef (l : loc).

Definition obj := list (string * hval).

(** [d[k] = v]: replaces the value of an existing key in place, appends a
    new key. *)
Fixpoint obj_set (k : string) (v : hval) (o : obj) : obj :=
  match o with
  | [] => [(k, v)]
  | (k', v') :: o' =>
      if String.eqb k' k then (k', v) :: o' else (k', v') :: obj_set k v o'
  end.

(** The value a heap value denotes, as [json.dumps] walks it.  A chain of
    references through distinct objects is no longer than the heap, so
    [reify (S (length h))] fails only on a dangling or circular reference. *)
Fixpoint reify (fuel : nat) (h : list obj) (v : hval) : option pyval :=
  match v with
  | HVal x => Some x
  | HRef l =>
      match fuel with
      | O => None
      | S fuel' =>
          o ← h !! l;
          fields ← mapM (λ kv, x ← reify fuel' h kv.2; Some (kv.1, x)) o;
          Some (PDict fields)
      end
  end.

(** ** The monad *)

Inductive exn :=
  | SystemExit (code : Z)
  | AttributeError
  | TypeError
  | KeyError
  | ValueError
  | JSONDecodeError
  | RequestException.

Inductive out_item :=
  | OutStr (s : string)        (* print(s) *)
  | OutJson (v : pyval).       (* print(json.dumps(v, indent=4)) *)

Record state := {
  heap : list obj;
  stdout : list out_item;
  http_log : list request
}.

Definition init : state := {| heap := []; stdout := []; http_log := [] |}.

Inductive result (A : Type) :=
  | Ok (a : A)
  | Raise (e : exn).
Arguments Ok {A} a.
Arguments Raise {A} e.

Definition M (A : Type) : Type := state -> result A * state.

Definition ret {A} (a : A) : M A := fun st => (Ok a, st).

Definition bind {A B} (m : M A) (k : A -> M B) : M B :=
  fun st =>
    match m st with
    | (Ok a, st') => k a st'
    | (Raise e, st') => (Raise e, st')
    end.

Definition raise {A} (e : exn) : M A := fun st => (Raise e, st).

Notation "x <- m ;; k" := (bind m (fun x => k))
  (at level 100, m at next level, right associativity).
Notation "m ;; k" := (bind m (fun _ => k))
  (at level 100, right associativity).

(** The status the process ends with: 0 at the end of the script, the code
    of [exit(code)], 1 for any other uncaught exception. *)
Definition exit_status {A} (r : result A) : Z :=
  match r with
  | Ok _ => 0
  | Raise (SystemExit c) => c
  | Raise _ => 1
  end.

Definition print (s : string) : M unit :=
  fun st => (Ok tt, {| heap := heap st; stdout := stdout st ++ [OutStr s];
                       http_log := http_log st |}).

Definition print_json (v : pyval) : M unit :=
  fun st => (Ok tt, {| heap := heap st; stdout := stdout st ++ [OutJson v];
                       http_log := http_log st |}).

Definition exit {A} (code : Z) : M A := raise (SystemExit code).

(** requests.post / get / put: the request is logged, then answered. *)
Definition http (w : world) (r : request) : M response :=
  fun st =>
    let st' := {| heap := heap st; stdout := stdout st;
                  http_log := http_log st ++ [r] |} in
    match send w r with
    | Answer a => (Ok a, st')
    | NoAnswer => (Raise RequestException, st')
    end.

(** A dict display [{...}] allocates a new object. *)
Definition new_dict (o : obj) : M loc :=
  fun st => (Ok (length (heap st)),
             {| heap := heap st ++ [o]; stdout := stdout st;
                http_log := http_log st |}).

(** [d.copy()]: a new object with the same slots (a shallow copy). *)
Definition dict_copy (l : loc) : M loc :=
  fun st =>
    match heap st !! l with
    | Some o => new_dict o st
    | None => (Raise ValueError, st)
    end.

(** [d[k]] *)
Definition getitem (l : loc) (k : string) : M hval :=
  fun st =>
    match heap st !! l with
    | Some o => match assoc k o with
                | Some v => (Ok v, st)
                | None => (Raise KeyError, st)
                end
    | None => (Raise ValueError, st)
    end.

(** [d[k] = v] *)
Definition setitem (l : loc) (k : string) (v : hval) : M unit :=
  fun st =>
    match heap st !! l with
    | Some o => (Ok tt, {| heap := <[l := obj_set k v o]> (heap st);
                           stdout := stdout st; http_log := http_log st |})
    | None => (Raise ValueError, st)
    end.

(** The receiver of a dict method must be a dict object. *)
Definition as_dict (v : hval) : M loc :=
  match v with
  | HRef l => ret l
  | HVal _ => raise AttributeError
  end.

(** The value [json.dumps] serialises, read from the heap at the call. *)
Definition json_dumps (v : hval) : M pyval :=
  fun st =>
    match reify (S (length (heap st))) (heap st) v with
    | Some x => (Ok x, st)
    | None => (Raise ValueError, st)
    end.

(** ** Operations on the values a response holds *)

(** [response.json()] *)
Definition resp_json (r : response) : M pyval :=
  match json r with
  | Some v => ret v
  | None => raise JSONDecodeError
  end.

(** [v.get(k)]: only a dict has the method. *)
Definition py_get (v : pyval) (k : string) : M pyval :=
  match v with
  | PDict d => ret (dict_get d k)
  | _ => raise AttributeError
  end.

(** [len(v)] *)
Definition py_len (v : pyval) : M Z :=
  match v with
  | PList l => ret (Z.of_nat (length l))
  | PDict d => ret (Z.of_nat (length d))
  | PStr s => ret (Z.of_nat (String.length s))
  | _ => raise TypeError
  end.

(** The elements [for x in v] runs through: the items of a list, the keys
    of a dict, the characters of a str. *)
Definition py_iter (v : pyval) : M (list pyval) :=
  match v with
  | PList l => ret l
  | PDict d => ret ((λ kv, PStr kv.1) <$> d)
  | PStr s => ret ((λ a, PStr (String a "")) <$> String.list_ascii_of_string s)
  | _ => raise TypeError
  end.

(** [code == 200 or code == 201], [code in [200, 201]] *)
Definition is_success (code : Z) : bool :=
  Z.eqb code 200 || Z.eqb code 201.

(** ** The functions of the script *)

Definition get_private_key_contents (w : world) (file_path : string)
  : M string :=
  match read_file w file_path with
  | Contents s => ret s
  | FileNotFound =>
      print ("Error: Private key file not found at '" +:+ file_path +:+ "'");;
      exit 1
  | PermissionDenied =>
      print ("Error: Permission denied when reading '" +:+ file_path +:+ "'");;
      exit 1
  | OtherFailure msg =>
      print ("Error reading private key file: " +:+ msg);;
      exit 1
  end.

(** The headers every call sends. *)
Definition api_headers (w : world) : list (string * option string) :=
  [("Content-Type", Some "application/json");
   ("X-Domo-Developer-Token", getenv w "access_token")].

Definition accounts_url (c : config) : string :=
  "https://" +:+ INSTANCE c +:+ "/api/data/v1/accounts".

Definition HIDDEN : string := "[PRIVATE KEY CONTENTS HIDDEN]".

Definition create_snowflake_account (w : world) (c : config) : M response :=
  (if nonempty (INSTANCE c) then ret tt
   else print "Error: INSTANCE is required. Please set it in the configuration section.";;
        exit 1);;
  (if nonempty (PRIVATE_KEY_FILE c) then ret tt
   else print "Error: PRIVATE_KEY_FILE is required. Please set it in the configuration section.";;
        exit 1);;
  private_key <- get_private_key_contents w (PRIVATE_KEY_FILE c);;
  let url := accounts_url c in
  configurations <- new_dict
    [("account", HVal (PStr (SNOWFLAKE_ACCOUNT c)));
     ("username", HVal (PStr (SNOWFLAKE_USERNAME c)));
     ("privateKey", HVal (PStr private_key));
     ("passPhrase", HVal (PStr (PASSPHRASE c)));
     ("role", HVal (PStr (SNOWFLAKE_ROLE c)))];;
  payload <- new_dict
    [("name", HVal (PStr (ACCOUNT_NAME c)));
     ("displayName", HVal (PStr (DISPLAY_NAME c)));
     ("dataProviderType", HVal (PStr "snowflakekeypairauthentication"));
     ("configurations", HRef configurations)];;
  print (default "None" (getenv w "access_token"));;
  let headers := api_headers w in
  print ("Creating Snowflake account '" +:+ DISPLAY_NAME c +:+ "' on "
         +:+ INSTANCE c +:+ "...");;
  print ("URL: " +:+ url);;
  print "Payload (private key truncated):";;
  (* debug_payload = payload.copy() *)
  debug_payload <- dict_copy payload;;
  (* debug_payload["configurations"] = payload["configurations"].copy() *)
  inner <- getitem payload "configurations";;
  inner <- as_dict inner;;
  inner_copy <- dict_copy inner;;
  setitem debug_payload "configurations" (HRef inner_copy);;
  (* debug_payload["configurations"]["privateKey"] = "[...HIDDEN]" *)
  target <- getitem debug_payload "configurations";;
  target <- as_dict target;;
  setitem target "privateKey" (HVal (PStr HIDDEN));;
  shown <- json_dumps (HRef debug_payload);;
  print_json shown;;
  body <- json_dumps (HRef payload);;
  response <- http w {| method := POST; url := url; headers := headers;
                        data := Some body |};;
  print (nl +:+ "Status Code: " +:+ str_of_int (status_code response));;
  (if is_success (status_code response)
   then print "Success! Account created.";; print (text response)
   else print "Error creating account:";; print (text response));;
  ret response.

Definition byos_accounts_url (c : config) : string :=
  "https://" +:+ INSTANCE c +:+ "/api/query/v1/byos/accounts".

(** One entry of the integration's property bag. *)
Definition config_entry (key : string) (value : string) : string * pyval :=
  (key, PDict [("key", PStr key); ("configType", PStr "CONFIG");
               ("value", PStr value)]).

(** The payloads below are never updated after they are built, so they are
    values and not heap objects. *)
Definition create_byos_integration (w : world) (c : config)
    (account_id : pyval) (friendly_name : option string)
    (description : string) : M response :=
  let friendly_name :=
    match friendly_name with
    | None => if nonempty (INTEGRATION_FRIENDLY_NAME c)
              then INTEGRATION_FRIENDLY_NAME c else DISPLAY_NAME c
    | Some n => n
    end in
  let description :=
    if nonempty description then description else INTEGRATION_DESCRIPTION c in
  let url := byos_accounts_url c in
  let payload :=
    PDict [("engine", PStr "SNOWFLAKE");
           ("properties", PDict
              [config_entry "friendlyName" friendly_name;
               config_entry "description" description;
               config_entry "serviceAccountId" (py_str w account_id);
               config_entry "AUTH_METHOD" "KEY_PAIR";
               config_entry "ADMIN_AUTH_METHOD" "KEY_PAIR"])] in
  let headers := api_headers w in
  print (nl +:+ "Creating BYOS integration '" +:+ friendly_name +:+ "' on "
         +:+ INSTANCE c +:+ "...");;
  print ("URL: " +:+ url);;
  print "Payload:";;
  print_json payload;;
  response <- http w {| method := POST; url := url; headers := headers;
                        data := Some payload |};;
  print (nl +:+ "Status Code: " +:+ str_of_int (status_code response));;
  (if is_success (status_code response)
   then print "Success! BYOS integration created.";; print (text response)
   else print "Error creating BYOS integration:";; print (text response));;
  ret response.

Definition warehouses_url (w : world) (c : config) (byos_id : pyval) : string :=
  "https://" +:+ INSTANCE c +:+ "/api/query/v1/byos/warehouses/"
  +:+ py_str w byos_id.

(** Returns the parsed list, or [PNone] for the script's [None]. *)
Definition get_available_warehouses (w : world) (c : config)
    (byos_id : pyval) : M pyval :=
  let url := warehouses_url w c byos_id in
  let headers := api_headers w in
  print (nl +:+ "Fetching available warehouses for BYOS integration '"
         +:+ py_str w byos_id +:+ "'...");;
  print ("URL: " +:+ url);;
  response <- http w {| method := GET; url := url; headers := headers;
                        data := None |};;
  print (nl +:+ "Status Code: " +:+ str_of_int (status_code response));;
  if Z.eqb (status_code response) 200 then
    warehouses <- resp_json response;;
    n <- py_len warehouses;;
    print ("Found " +:+ str_of_int n +:+ " available warehouses");;
    ret warehouses
  else
    print "Error fetching warehouses:";;
    print (text response);;
    ret PNone.

(** The scan [for wh in warehouses: if wh.get("warehouse") == name:
    matching_warehouse = wh; break]. *)
Fixpoint find_matching (warehouses : list pyval) (warehouse_name : string)
  : M (option pyval) :=
  match warehouses with
  | [] => ret None
  | wh :: rest =>
      v <- py_get wh "warehouse";;
      if eq_str v warehouse_name then ret (Some wh)
      else find_matching rest warehouse_name
  end.

(** The loop [for wh in warehouses: print(f"  - {wh.get('warehouse')}")]. *)
Fixpoint print_available (w : world) (warehouses : list pyval) : M unit :=
  match warehouses with
  | [] => ret tt
  | wh :: rest =>
      v <- py_get wh "warehouse";;
      print ("  - " +:+ py_str w v);;
      print_available w rest
  end.

(** The single-element list sent by the PUT. *)
Definition assignment_payload (deviceName warehouse device instanceSize
    warehouseSizeFriendlyName : pyval) (activities : list string) : pyval :=
  PList [PDict [("deviceName", deviceName);
                ("warehouse", warehouse);
                ("device", device);
                ("instanceSize", instanceSize);
                ("warehouseSizeFriendlyName", warehouseSizeFriendlyName);
                ("activities", PList (PStr <$> activities))]].

(** Returns the PUT's response, or [None]. *)
Definition assign_warehouse_to_integration (w : world) (c : config)
    (byos_id : pyval) (warehouse_name : string)
    (activities : option (list string)) : M (option response) :=
  let activities := default (WAREHOUSE_ACTIVITIES c) activities in
  warehouses <- get_available_warehouses w c byos_id;;
  match warehouses with
  | PNone =>
      print "Error: Could not retrieve available warehouses";;
      ret None
  | _ =>
      items <- py_iter warehouses;;
      matching_warehouse <- find_matching items warehouse_name;;
      match matching_warehouse with
      | None =>
          print (nl +:+ "Error: Warehouse '" +:+ warehouse_name
                 +:+ "' not found in available warehouses.");;
          print "Available warehouses:";;
          print_available w items;;
          ret None
      | Some matching_warehouse =>
          print (nl +:+ "Found matching warehouse: " +:+ warehouse_name);;
          device <- py_get matching_warehouse "device";;
          print ("  Device: " +:+ py_str w device);;
          size <- py_get matching_warehouse "warehouseSizeFriendlyName";;
          print ("  Size: " +:+ py_str w size);;
          let url := warehouses_url w c byos_id in
          f1 <- py_get matching_warehouse "deviceName";;
          f2 <- py_get matching_warehouse "warehouse";;
          f3 <- py_get matching_warehouse "device";;
          f4 <- py_get matching_warehouse "instanceSize";;
          f5 <- py_get matching_warehouse "warehouseSizeFriendlyName";;
          let payload := assignment_payload f1 f2 f3 f4 f5 activities in
          let headers := api_headers w in
          print (nl +:+ "Assigning warehouse '" +:+ warehouse_name
                 +:+ "' to BYOS integration...");;
          print ("URL: " +:+ url);;
          print "Payload:";;
          print_json payload;;
          response <- http w {| method := PUT; url := url; headers := headers;
                                data := Some payload |};;
          print (nl +:+ "Status Code: " +:+ str_of_int (status_code response));;
          (if is_success (status_code response)
           then print "Success! Warehouse assigned to integration.";;
                print (text response)
           else print "Error assigning warehouse:";; print (text response));;
          ret (Some response)
      end
  end.

Definition banner : string := str_repeat "=" 60.

(** The [__main__] block. *)
Definition main (w : world) (c : config) : M unit :=
  account_id <-
    (if nonempty (EXISTING_ACCOUNT_ID c) then
       print banner;;
       print "USING EXISTING ACCOUNT";;
       print banner;;
       print ("Using existing account ID: " +:+ EXISTING_ACCOUNT_ID c);;
       ret (PStr (EXISTING_ACCOUNT_ID c))
     else
       account_response <- create_snowflake_account w c;;
       if is_success (status_code account_response) then
         account_data <- resp_json account_response;;
         account_id <- py_get account_data "id";;
         if truthy account_id then ret account_id
         else print "Error: Could not extract account ID from response";;
              exit 1
       else
         print (nl +:+ "Skipping BYOS integration creation due to account creation failure.");;
         exit 1);;
  print (nl +:+ banner);;
  print "CREATING BYOS INTEGRATION";;
  print banner;;
  byos_response <- create_byos_integration w c account_id None "";;
  if is_success (status_code byos_response) && nonempty (WAREHOUSE_NAME c) then
    byos_data <- resp_json byos_response;;
    byos_id <- py_get byos_data "id";;
    if truthy byos_id then
      print (nl +:+ banner);;
      print "ASSIGNING WAREHOUSE TO INTEGRATION";;
      print banner;;
      assign_warehouse_to_integration w c byos_id (WAREHOUSE_NAME c) None;;
      ret tt
    else
      print "Error: Could not extract BYOS integration ID from response"
  else if negb (nonempty (WAREHOUSE_NAME c)) then
    print (nl +:+ "No WAREHOUSE_NAME configured - skipping warehouse assignment.")
  else ret tt.

(** One run of the script: its outcome and the final state. *)
Definition run (w : world) (c : config) : result unit * state :=
  main w c init.

(** ** The requests and payloads the statements speak of *)

Definition account_payload (c : config) (private_key : string) : pyval :=
  PDict [("name", PStr (ACCOUNT_NAME c));
         ("displayName", PStr (DISPLAY_NAME c));
         ("dataProviderType", PStr "snowflakekeypairauthentication");
         ("configurations", PDict
            [("account", PStr (SNOWFLAKE_ACCOUNT c));
             ("username", PStr (SNOWFLAKE_USERNAME c));
             ("privateKey", PStr private_key);
             ("passPhrase", PStr (PASSPHRASE c));
             ("role", PStr (SNOWFLAKE_ROLE c))])].

Definition account_request (w : world) (c : config) (private_key : string)
  : request :=
  {| method := POST; url := accounts_url c; headers := api_headers w;
     data := Some (account_payload c private_key) |}.

(** What [create_snowflake_account] prints around an answered request. *)
Definition account_output (w : world) (c : config) (r : response)
  : list out_item :=
  [OutStr (default "None" (getenv w "access_token"));
   OutStr ("Creating Snowflake account '" +:+ DISPLAY_NAME c +:+ "' on "
           +:+ INSTANCE c +:+ "...");
   OutStr ("URL: " +:+ accounts_url c);
   OutStr "Payload (private key truncated):";
   OutJson (account_payload c HIDDEN);
   OutStr (nl +:+ "Status Code: " +:+ str_of_int (status_code r));
   OutStr (if is_success (status_code r) then "Success! Account created."
           else "Error creating account:");
   OutStr (text r)].

(** The integration request of [main], which passes neither a friendly
    name nor a description. *)
Definition integration_payload (w : world) (c : config) (account_id : pyval)
  : pyval :=
  PDict [("engine", PStr "SNOWFLAKE");
         ("properties", PDict
            [config_entry "friendlyName"
               (if nonempty (INTEGRATION_FRIENDLY_NAME c)
                then INTEGRATION_FRIENDLY_NAME c else DISPLAY_NAME c);
             config_entry "description" (INTEGRATION_DESCRIPTION c);
             config_entry "serviceAccountId" (py_str w account_id);
             config_entry "AUTH_METHOD" "KEY_PAIR";
             config_entry "ADMIN_AUTH_METHOD" "KEY_PAIR"])].

Definition integration_request (w : world) (c : config) (account_id : pyval)
  : request :=
  {| method := POST; url := byos_accounts_url c; headers := api_headers w;
     data := Some (integration_payload w c account_id) |}.

Definition list_request (w : world) (c : config) (byos_id : pyval) : request :=
  {| method := GET; url := warehouses_url w c byos_id;
     headers := api_headers w; data := None |}.

(** The PUT built from the descriptor [d]. *)
Definition put_request (w : world) (c : config) (byos_id : pyval)
    (d : dict) (activities : list string) : request :=
  {| method := PUT; url := warehouses_url w c byos_id;
     headers := api_headers w;
     data := Some (assignment_payload
                     (dict_get d "deviceName") (dict_get d "warehouse")
                     (dict_get d "device") (dict_get d "instanceSize")
                     (dict_get d "warehouseSizeFriendlyName") activities) |}.

(** The descriptor [d] carries the requested name. *)
Definition named (name : string) (d : dict) : bool :=
  eq_str (dict_get d "warehouse") name.

(** The line of the not-found enumeration for the descriptor [d]. *)
Definition available_line (w : world) (d : dict) : out_item :=
  OutStr ("  - " +:+ py_str w (dict_get d "warehouse")).


(** A status of the 2xx class. *)
Definition is_2xx (code : Z) : bool := (200 <=? code)%Z && (code <? 300)%Z.

(** The first stage of [main] has produced [account_id], having issued the
    requests [log]: the identifier was supplied, or the account was created
    and the answer carried a truthy [id]. *)
Inductive account_stage (w : world) (c : config)
  : pyval -> list request -> Prop :=
  | stage_existing :
      nonempty (EXISTING_ACCOUNT_ID c) = true ->
      account_stage w c (PStr (EXISTING_ACCOUNT_ID c)) []
  | stage_created (key : string) (r : response) (d : dict) :
      nonempty (EXISTING_ACCOUNT_ID c) = false ->
      nonempty (INSTANCE c) = true ->
      nonempty (PRIVATE_KEY_FILE c) = true ->
      read_file w (PRIVATE_KEY_FILE c) = Contents key ->
      send w (account_request w c key) = Answer r ->
      is_success (status_code r) = true ->
      json r = Some (PDict d) ->
      truthy (dict_get d "id") = true ->
      account_stage w c (dict_get d "id") [account_request w c key].

(** Whatever [m] returns, it leaves the requests issued before it in place
    and the requests it adds satisfy [Q]. *)
Definition appends {A} (Q : request -> Prop) (m : M A) : Prop :=
  forall st, exists new,
    http_log (m st).2 = http_log st ++ new /\ Forall Q new.

(** The dictionary objects [create_snowflake_account] leaves behind:
    [configurations], [payload], [debug_payload] and the copy of
    [configurations] that holds the placeholder. *)
Definition account_heap (c : config) (private_key : string) : list obj :=
  let configurations (shown : string) : obj :=
    [("account", HVal (PStr (SNOWFLAKE_ACCOUNT c)));
     ("username", HVal (PStr (SNOWFLAKE_USERNAME c)));
     ("privateKey", HVal (PStr shown));
     ("passPhrase", HVal (PStr (PASSPHRASE c)));
     ("role", HVal (PStr (SNOWFLAKE_ROLE c)))] in
  let payload (l : loc) : obj :=
    [("name", HVal (PStr (ACCOUNT_NAME c)));
     ("displayName", HVal (PStr (DISPLAY_NAME c)));
     ("dataProviderType", HVal (PStr "snowflakekeypairauthentication"));
     ("configurations", HRef l)] in
  [configurations private_key; payload 0%nat; payload 3%nat;
   configurations HIDDEN].

(** What [create_byos_integration] prints before its request. *)
Definition integration_announce (w : world) (c : config) (account_id : pyval)
  : list out_item :=
  [OutStr (nl +:+ "Creating BYOS integration '"
           +:+ (if nonempty (INTEGRATION_FRIENDLY_NAME c)
                then INTEGRATION_FRIENDLY_NAME c else DISPLAY_NAME c)
           +:+ "' on " +:+ INSTANCE c +:+ "...");
   OutStr ("URL: " +:+ byos_accounts_url c);
   OutStr "Payload:";
   OutJson (integration_payload w c account_id)].

(** What it prints around an answered request. *)
Definition integration_output (w : world) (c : config) (account_id : pyval)
    (r : response) : list out_item :=
  integration_announce w c account_id ++
  [OutStr (nl +:+ "Status Code: " +:+ str_of_int (status_code r));
   OutStr (if is_success (status_code r)
           then "Success! BYOS integration created."
           else "Error creating BYOS integration:");
   OutStr (text r)].



(** The message of the missing account identifier. *)
Definition missing_id_error : out_item :=
  OutStr "Error: Could not extract account ID from response".

(** ** Scenarios

    A small deployment on which the statements are exercised: the server
    answers each of the four calls with a fixed result. *)

Definition answer (code : Z) (body : string) (parsed : option pyval)
  : http_result :=
  Answer {| status_code := code; text := body; json := parsed |}.

Definition demo_config (existing warehouse : string) : config :=
  {| INSTANCE := "acme.example.com";
     ACCOUNT_NAME := "sf_acct";
     DISPLAY_NAME := "Snowflake";
     SNOWFLAKE_ACCOUNT := "xy12345";
     SNOWFLAKE_USERNAME := "svc";
     SNOWFLAKE_ROLE := "LOADER";
     PRIVATE_KEY_FILE := "rsa_key.p8";
     PASSPHRASE := "";
     INTEGRATION_FRIENDLY_NAME := "";
     INTEGRATION_DESCRIPTION := "";
     WAREHOUSE_NAME := warehouse;
     WAREHOUSE_ACTIVITIES := ["query"; "index"; "dataflow"];
     EXISTING_ACCOUNT_ID := existing |}.

(** The scenarios hold scalars only, on which [str] never calls [repr]. *)
Definition demo_world (key : file_result)
    (account integration listing assignment : http_result) : world :=
  {| py_repr := fun _ => "<repr>";
     getenv := fun _ => Some "token";
     read_file := fun _ => key;
     send := fun r =>
       match method r with
       | GET => listing
       | PUT => assignment
       | POST =>
           if String.eqb (url r) "https://acme.example.com/api/data/v1/accounts"
           then account else integration
       end |}.

Definition descriptor (name size : string) : dict :=
  [("deviceName", PStr "dev-1"); ("warehouse", PStr name);
   ("device", PStr "snowflake"); ("instanceSize", PStr size);
   ("warehouseSizeFriendlyName", PStr size)].

(** A descriptor without the [warehouse] key. *)
Definition nameless : dict :=
  [("deviceName", PStr "dev-2"); ("device", PStr "snowflake")].

Definition created : http_result :=
  answer 200 "{id: 7}" (Some (PDict [("id", PInt 7)])).

Definition integrated : http_result :=
  answer 201 "{id: 42}" (Some (PDict [("id", PInt 42)])).

(** Two warehouses named WH_SMALL, the second after the first. *)
Definition listed_twice : http_result :=
  answer 200 "[...]"
    (Some (PList [PDict (descriptor "WH_BIG" "L");
                  PDict (descriptor "WH_SMALL" "S");
                  PDict (descriptor "WH_SMALL" "XL")])).

(** No warehouse named WH_SMALL, and one descriptor without a name. *)
Definition listed_others : http_result :=
  answer 200 "[...]"
    (Some (PList [PDict (descriptor "WH_BIG" "L"); PDict nameless])).

Definition refused (code : Z) : http_result :=
  answer code "{error}" (Some (PDict [("error", PStr "refused")])).

Definition happy_world : world :=
  demo_world (Contents "KEY-MATERIAL") created integrated listed_twice
             (answer 200 "ok" None).

Definition not_found_world : world :=
  demo_world (Contents "KEY-MATERIAL") created integrated listed_others
             (answer 200 "ok" None).

Definition no_listing_world : world :=
  demo_world (Contents "KEY-MATERIAL") created integrated (refused 403)
             (answer 200 "ok" None).

(** The integration request is refused with a server error. *)
Definition refused_integration_world : world :=
  demo_world (Contents "KEY-MATERIAL") created (refused 500) listed_twice
             (answer 200 "ok" None).

(** The assignment is refused. *)
Definition refused_assignment_world : world :=
  demo_world (Contents "KEY-MATERIAL") created integrated listed_twice
             (refused 409).

(** The key file is missing. *)
Definition no_key_world : world :=
  demo_world FileNotFound created integrated listed_twice
             (answer 200 "ok" None).

(** The account request is answered 202 Accepted with an empty object. *)
Definition accepted_world : world :=
  demo_world (Contents "KEY-MATERIAL") (answer 202 "{}" (Some (PDict [])))
             integrated listed_twice (answer 200 "ok" None).

(** The account request is answered 200 with an object without [id]. *)
Definition no_id_world : world :=
  demo_world (Contents "KEY-MATERIAL")
             (answer 200 "{name: sf_acct}"
                (Some (PDict [("name", PStr "sf_acct")])))
             integrated listed_twice (answer 200 "ok" None).

(** The account request is refused with a message that quotes the key. *)
Definition echo_world : world :=
  demo_world (Contents "KEY-MATERIAL")
             (answer 400 "cannot parse private key: KEY-MATERIAL" None)
             integrated listed_twice (answer 200 "ok" None).

(** ** Notions for the statements about whole runs *)

(** The settings as the script ships them: every string empty, the three
    activities. *)
Definition shipped_config : config :=
  {| INSTANCE := "";
     ACCOUNT_NAME := "";
     DISPLAY_NAME := "";
     SNOWFLAKE_ACCOUNT := "";
     SNOWFLAKE_USERNAME := "";
     SNOWFLAKE_ROLE := "";
     PRIVATE_KEY_FILE := "";
     PASSPHRASE := "";
     INTEGRATION_FRIENDLY_NAME := "";
     INTEGRATION_DESCRIPTION := "";
     WAREHOUSE_NAME := "";
     WAREHOUSE_ACTIVITIES := ["query"; "index"; "dataflow"];
     EXISTING_ACCOUNT_ID := "" |}.

(** Whatever [m] raises satisfies [E]. *)
Definition only_raises {A} (E : exn -> Prop) (m : M A) : Prop :=
  forall st e, (m st).1 = Raise e -> E e.

(** An exception that ends the process with status 1. *)
Definition exit_one (e : exn) : Prop :=
  match e with
  | SystemExit code => code = 1
  | _ => True
  end.

(** An exception that is not a call of [exit]. *)
Definition no_exit (e : exn) : Prop :=
  match e with
  | SystemExit _ => False
  | _ => True
  end.

(** The [value] of the entry [key] in the property bag a request carries. *)
Definition sent_property (q : request) (key : string) : pyval :=
  match data q with
  | Some (PDict p) =>
      match dict_get p "properties" with
      | PDict props =>
          match dict_get props key with
          | PDict entry => dict_get entry "value"
          | _ => PNone
          end
      | _ => PNone
      end
  | _ => PNone
  end.

(** The request carries the two headers of the script and goes to the API
    of the configured instance. *)
Definition well_addressed (w : world) (c : config) (q : request) : Prop :=
  headers q = api_headers w
  /\ exists path, url q = "https://" +:+ INSTANCE c +:+ "/api/" +:+ path.

(** The account request is answered 200 with text that is not JSON. *)
Definition garbled_world : world :=
  demo_world (Contents "KEY-MATERIAL") (answer 200 "<html>" None)
             integrated listed_twice (answer 200 "ok" None).

(** The integration is created but the answer holds no [id]. *)
Definition no_byos_id_world : world :=
  demo_world (Contents "KEY-MATERIAL") created
             (answer 201 "{}" (Some (PDict []))) listed_twice
             (answer 200 "ok" None).

(** The listing is answered with an object that wraps the list. *)
Definition wrapped_listing_world : world :=
  demo_world (Contents "KEY-MATERIAL") created integrated
             (answer 200 "{warehouses: [...]}"
                (Some (PDict [("warehouses",
                               PList [PDict (descriptor "WH_SMALL" "S")])])))
             (answer 200 "ok" None).

(** The listing is answered 200 with the JSON value null. *)
Definition null_listing_world : world :=
  demo_world (Contents "KEY-MATERIAL") created integrated
             (answer 200 "null" (Some PNone)) (answer 200 "ok" None).

(** [len] is defined on the value: a list, an object or a str. *)
Definition has_len (v : pyval) : bool :=
  match v with
  | PList _ | PDict _ | PStr _ => true
  | _ => false
  end.

(** The value is a JSON object. *)
Definition is_object (v : pyval) : bool :=
  match v with
  | PDict _ => true
  | _ => false
  end.

(** The world [w] with [files] as its file system. *)
Definition with_files (w : world) (files : string -> file_result) : world :=
  {| py_repr := py_repr w; getenv := getenv w; read_file := files;
     send := send w |}.

(** A configuration with an identifier supplied and no instance. *)
Definition hostless_config : config :=
  {| INSTANCE := "";
     ACCOUNT_NAME := "sf_acct";
     DISPLAY_NAME := "Snowflake";
     SNOWFLAKE_ACCOUNT := "xy12345";
     SNOWFLAKE_USERNAME := "svc";
     SNOWFLAKE_ROLE := "LOADER";
     PRIVATE_KEY_FILE := "rsa_key.p8";
     PASSPHRASE := "";
     INTEGRATION_FRIENDLY_NAME := "";
     INTEGRATION_DESCRIPTION := "";
     WAREHOUSE_NAME := "WH_SMALL";
     WAREHOUSE_ACTIVITIES := ["query"; "index"; "dataflow"];
     EXISTING_ACCOUNT_ID := "acct-9" |}.

(** No call is answered: every one of them raises. *)
Definition unreachable_world : world :=
  demo_world (Contents "KEY-MATERIAL") NoAnswer NoAnswer NoAnswer NoAnswer.

(** The integration request is answered 200 with text that is not JSON. *)
Definition garbled_integration_world : world :=
  demo_world (Contents "KEY-MATERIAL") created (answer 200 "<html>" None)
             listed_twice (answer 200 "ok" None).

(** The message of the INSTANCE check. *)
Definition instance_error : out_item :=
  OutStr "Error: INSTANCE is required. Please set it in the configuration section.".

(** * Proofs *)

Local Arguments String.append : simpl never.

(** One step of symbolic execution of a monadic term applied to a state. *)
Ltac mred :=
  unfold bind, print, print_json, http, ret, raise, exit, resp_json, py_len,
         py_iter, py_get, new_dict, dict_copy, getitem, setitem, as_dict,
         json_dumps; cbn.

(** The functions of the script are unfolded on demand only. *)
Local Arguments banner : simpl never.
Local Arguments create_snowflake_account : simpl never.
Local Arguments create_byos_integration : simpl never.
Local Arguments get_available_warehouses : simpl never.
Local Arguments assign_warehouse_to_integration : simpl never.

(** ** The scan and the enumeration *)

Section Scan.
Variables (w : world) (name : string).

(** The scan neither prints nor sends. *)
Lemma find_matching_state (ws : list pyval) (st : state) :
  (find_matching ws name st).2 = st.
Proof.
  induction ws as [|wh ws IH]; [reflexivity|].
  destruct wh; try reflexivity.
  cbn. mred. destruct (eq_str _ _); [reflexivity|exact IH].
Qed.

Lemma find_matching_first (pre : list dict) (d : dict) (post : list pyval)
    (st : state) :
  Forall (λ d', named name d' = false) pre ->
  named name d = true ->
  find_matching ((PDict <$> pre) ++ PDict d :: post) name st
  = (Ok (Some (PDict d)), st).
Proof.
  intros Hpre Hd. unfold named in *.
  induction Hpre as [|d' pre Hd' _ IH]; cbn; mred.
  - rewrite Hd. reflexivity.
  - rewrite Hd'. exact IH.
Qed.

Lemma find_matching_none (ds : list dict) (st : state) :
  Forall (λ d, named name d = false) ds ->
  find_matching (PDict <$> ds) name st = (Ok None, st).
Proof.
  intros Hds. unfold named in *.
  induction Hds as [|d ds Hd _ IH]; [reflexivity|].
  cbn; mred. rewrite Hd. exact IH.
Qed.


Lemma print_available_dicts (ds : list dict) (st : state) :
  print_available w (PDict <$> ds) st
  = (Ok tt, {| heap := heap st;
               stdout := stdout st ++ (available_line w <$> ds);
               http_log := http_log st |}).
Proof.
  revert st. induction ds as [|d ds IH]; intros st.
  - cbn. mred. rewrite app_nil_r. by destruct st.
  - cbn. mred. rewrite IH. cbn. by rewrite <- app_assoc.
Qed.
End Scan.

(** ** Runs of [assign_warehouse_to_integration] *)

(** Appending to the output of a state, re-associated to the right. *)
Ltac norm_out := cbn; rewrite <- ?(app_assoc (stdout _)); cbn.

Section Assign.
Variables (w : world) (c : config) (byos_id : pyval) (name : string).
Variable activities : option (list string).

(** The listing is refused: nothing more is sent. *)
Lemma assign_listing_refused (r : response) (st : state) :
  send w (list_request w c byos_id) = Answer r ->
  status_code r ≠ 200 ->
  exists out,
    assign_warehouse_to_integration w c byos_id name activities st
    = (Ok None, {| heap := heap st; stdout := stdout st ++ out;
                   http_log := http_log st ++ [list_request w c byos_id] |}).
Proof.
  intros Hs Hc. apply Z.eqb_neq in Hc.
  unfold assign_warehouse_to_integration, get_available_warehouses.
  mred. fold (list_request w c byos_id). rewrite Hs. mred. rewrite Hc. mred.
  norm_out. eexists. reflexivity.
Qed.

(** No descriptor carries the name: the names are listed, nothing more is
    sent. *)
Lemma assign_not_found (r : response) (ds : list dict) (st : state) :
  send w (list_request w c byos_id) = Answer r ->
  status_code r = 200 ->
  json r = Some (PList (PDict <$> ds)) ->
  Forall (λ d, named name d = false) ds ->
  exists out,
    assign_warehouse_to_integration w c byos_id name activities st
    = (Ok None,
       {| heap := heap st;
          stdout := stdout st ++ out ++ [OutStr "Available warehouses:"]
                      ++ (available_line w <$> ds);
          http_log := http_log st ++ [list_request w c byos_id] |}).
Proof.
  intros Hs Hc Hj Hds.
  unfold assign_warehouse_to_integration, get_available_warehouses.
  mred. fold (list_request w c byos_id). rewrite Hs. mred. rewrite Hc. mred.
  rewrite Hj. mred. rewrite find_matching_none by assumption. mred.
  rewrite print_available_dicts. norm_out.
  eexists [_; _; _; _; _]. reflexivity.
Qed.

(** The descriptor [d] is the first to carry the name: the PUT is built
    from it and its answer is returned. *)
Lemma assign_found (r : response) (pre : list dict) (d : dict)
    (post : list pyval) (st : state) :
  send w (list_request w c byos_id) = Answer r ->
  status_code r = 200 ->
  json r = Some (PList ((PDict <$> pre) ++ PDict d :: post)) ->
  Forall (λ d', named name d' = false) pre ->
  named name d = true ->
  let put := put_request w c byos_id d
               (default (WAREHOUSE_ACTIVITIES c) activities) in
  exists out,
    assign_warehouse_to_integration w c byos_id name activities st
    = (match send w put with
       | Answer a => Ok (Some a)
       | NoAnswer => Raise RequestException
       end,
       {| heap := heap st; stdout := stdout st ++ out;
          http_log := http_log st ++ [list_request w c byos_id; put] |}).
Proof.
  intros Hs Hc Hj Hpre Hd put.
  unfold assign_warehouse_to_integration, get_available_warehouses.
  mred. fold (list_request w c byos_id). rewrite Hs. mred. rewrite Hc. mred.
  rewrite Hj. mred. rewrite find_matching_first by assumption. mred.
  fold (put_request w c byos_id d (default (WAREHOUSE_ACTIVITIES c) activities)).
  fold put. rewrite <- (app_assoc (http_log st)).
  destruct (send w put) as [a|]; cbn.
  - destruct (is_success (status_code a)); norm_out; eexists; reflexivity.
  - norm_out; eexists; reflexivity.
Qed.
End Assign.

(** ** Warehouse selection and assignment *)

(** C2.  When the listing holds a descriptor [d] carrying the requested
    name and no descriptor before it does, the scan returns [d] and the PUT
    that [assign_warehouse_to_integration] issues is built from [d],
    whatever follows [d] in the listing (also other descriptors with the
    same name). *)
Theorem assign_selects_first_match (w : world) (c : config) (byos_id : pyval)
    (name : string) (activities : option (list string)) (r : response)
    (pre : list dict) (d : dict) (post : list pyval) (st : state) :
  send w (list_request w c byos_id) = Answer r ->
  status_code r = 200 ->
  json r = Some (PList ((PDict <$> pre) ++ PDict d :: post)) ->
  Forall (λ d', named name d' = false) pre ->
  named name d = true ->
  find_matching ((PDict <$> pre) ++ PDict d :: post) name st
  = (Ok (Some (PDict d)), st)
  /\ http_log (assign_warehouse_to_integration w c byos_id name activities st).2
     = http_log st ++ [list_request w c byos_id;
                       put_request w c byos_id d
                         (default (WAREHOUSE_ACTIVITIES c) activities)].
Proof.
  intros Hs Hc Hj Hpre Hd. split.
  - by apply find_matching_first.
  - destruct (assign_found w c byos_id name activities r pre d post st)
      as [out ->]; done.
Qed.

Lemma assign_selects_first_match_witness :
  let c := demo_config "" "WH_SMALL" in
  http_log (assign_warehouse_to_integration happy_world c (PInt 42)
              "WH_SMALL" None init).2
  = [list_request happy_world c (PInt 42);
     put_request happy_world c (PInt 42) (descriptor "WH_SMALL" "S")
       ["query"; "index"; "dataflow"]].
Proof.
  intros c.
  refine (proj2 (assign_selects_first_match happy_world c (PInt 42) "WH_SMALL"
            None _ [descriptor "WH_BIG" "L"] (descriptor "WH_SMALL" "S")
            [PDict (descriptor "WH_SMALL" "XL")] init _ _ _ _ _)).
  - reflexivity.
  - reflexivity.
  - reflexivity.
  - repeat constructor.
  - reflexivity.
Defined.

(** C8.  On a match the PUT carries a list of one object whose five
    descriptor fields are those of the matched descriptor [d], read with
    [get], and whose [activities] are the caller's, or the configured
    ones when the caller gives none. *)
Theorem assign_payload_from_descriptor (w : world) (c : config)
    (byos_id : pyval) (name : string) (activities : option (list string))
    (r : response) (pre : list dict) (d : dict) (post : list pyval)
    (st : state) :
  send w (list_request w c byos_id) = Answer r ->
  status_code r = 200 ->
  json r = Some (PList ((PDict <$> pre) ++ PDict d :: post)) ->
  Forall (λ d', named name d' = false) pre ->
  named name d = true ->
  exists put,
    http_log (assign_warehouse_to_integration w c byos_id name activities st).2
    = http_log st ++ [list_request w c byos_id; put]
    /\ method put = PUT
    /\ url put = warehouses_url w c byos_id
    /\ data put
       = Some (PList
           [PDict
              [("deviceName", dict_get d "deviceName");
               ("warehouse", dict_get d "warehouse");
               ("device", dict_get d "device");
               ("instanceSize", dict_get d "instanceSize");
               ("warehouseSizeFriendlyName",
                dict_get d "warehouseSizeFriendlyName");
               ("activities",
                PList (PStr <$> match activities with
                                | Some given => given
                                | None => WAREHOUSE_ACTIVITIES c
                                end))]]).
Proof.
  intros Hs Hc Hj Hpre Hd.
  destruct (assign_found w c byos_id name activities r pre d post st)
    as [out ->]; try done.
  eexists. split; [reflexivity|]. by destruct activities.
Qed.

Lemma assign_payload_from_descriptor_witness :
  let c := demo_config "" "WH_SMALL" in
  exists put,
    http_log (assign_warehouse_to_integration happy_world c (PInt 42)
                "WH_SMALL" (Some ["query"]) init).2
    = [list_request happy_world c (PInt 42); put]
    /\ method put = PUT
    /\ url put = "https://acme.example.com/api/query/v1/byos/warehouses/42"
    /\ data put
       = Some (PList
           [PDict
              [("deviceName", PStr "dev-1");
               ("warehouse", PStr "WH_SMALL");
               ("device", PStr "snowflake");
               ("instanceSize", PStr "S");
               ("warehouseSizeFriendlyName", PStr "S");
               ("activities", PList [PStr "query"])]]).
Proof.
  intros c.
  refine (assign_payload_from_descriptor happy_world c (PInt 42) "WH_SMALL"
            (Some ["query"]) _ [descriptor "WH_BIG" "L"]
            (descriptor "WH_SMALL" "S") [PDict (descriptor "WH_SMALL" "XL")]
            init _ _ _ _ _).
  - reflexivity.
  - reflexivity.
  - reflexivity.
  - repeat constructor.
  - reflexivity.
Defined.

(** C5.  When no descriptor of the listing carries the requested name,
    [assign_warehouse_to_integration] sends the GET and nothing else (no
    PUT), returns [None], and ends its output with the heading followed by
    one line per descriptor, in listing order, showing its [warehouse]
    field. *)
Theorem assign_not_found_lists_names (w : world) (c : config)
    (byos_id : pyval) (name : string) (activities : option (list string))
    (r : response) (ds : list dict) (st : state) :
  send w (list_request w c byos_id) = Answer r ->
  status_code r = 200 ->
  json r = Some (PList (PDict <$> ds)) ->
  Forall (λ d, named name d = false) ds ->
  let run := assign_warehouse_to_integration w c byos_id name activities st in
  run.1 = Ok None
  /\ http_log run.2 = http_log st ++ [list_request w c byos_id]
  /\ Forall (λ q, method q ≠ PUT) [list_request w c byos_id]
  /\ exists out,
       stdout run.2
       = stdout st ++ out ++ [OutStr "Available warehouses:"]
           ++ ((λ d, OutStr ("  - " +:+ py_str w (dict_get d "warehouse")))
                 <$> ds).
Proof.
  intros Hs Hc Hj Hds run. subst run.
  destruct (assign_not_found w c byos_id name activities r ds st)
    as [out ->]; try done.
  repeat split; [by repeat constructor|]. by exists out.
Qed.

Lemma assign_not_found_lists_names_witness :
  let c := demo_config "" "WH_SMALL" in
  let run := assign_warehouse_to_integration not_found_world c (PInt 42)
               "WH_SMALL" None init in
  run.1 = Ok None
  /\ http_log run.2 = [list_request not_found_world c (PInt 42)]
  /\ Forall (λ q, method q ≠ PUT) [list_request not_found_world c (PInt 42)]
  /\ exists out,
       stdout run.2
       = out ++ [OutStr "Available warehouses:";
                 OutStr "  - WH_BIG"; OutStr "  - None"].
Proof.
  intros c.
  refine (assign_not_found_lists_names not_found_world c (PInt 42) "WH_SMALL"
            None _ [descriptor "WH_BIG" "L"; nameless] init _ _ _ _).
  - reflexivity.
  - reflexivity.
  - reflexivity.
  - repeat constructor.
Defined.

(** C9.  [assign_warehouse_to_integration] returns [None] when the listing
    is answered with a status other than 200, and it returns [None] when
    the listing is answered with 200 and no descriptor carries the name:
    the two returned values are the same. *)
Theorem assign_none_on_both_failures (w1 w2 : world) (c : config)
    (byos_id : pyval) (name : string) (activities : option (list string))
    (r1 r2 : response) (ds : list dict) (st1 st2 : state) :
  send w1 (list_request w1 c byos_id) = Answer r1 ->
  status_code r1 ≠ 200 ->
  send w2 (list_request w2 c byos_id) = Answer r2 ->
  status_code r2 = 200 ->
  json r2 = Some (PList (PDict <$> ds)) ->
  Forall (λ d, named name d = false) ds ->
  (assign_warehouse_to_integration w1 c byos_id name activities st1).1 = Ok None
  /\ (assign_warehouse_to_integration w2 c byos_id name activities st2).1
     = (assign_warehouse_to_integration w1 c byos_id name activities st1).1.
Proof.
  intros Hs1 Hc1 Hs2 Hc2 Hj Hds.
  destruct (assign_listing_refused w1 c byos_id name activities r1 st1)
    as [out1 ->]; try done.
  destruct (assign_not_found w2 c byos_id name activities r2 ds st2)
    as [out2 ->]; done.
Qed.

Lemma assign_none_on_both_failures_witness :
  let c := demo_config "" "WH_SMALL" in
  (assign_warehouse_to_integration no_listing_world c (PInt 42) "WH_SMALL"
     None init).1 = Ok None
  /\ (assign_warehouse_to_integration not_found_world c (PInt 42) "WH_SMALL"
        None init).1
     = (assign_warehouse_to_integration no_listing_world c (PInt 42)
          "WH_SMALL" None init).1.
Proof.
  intros c.
  refine (assign_none_on_both_failures no_listing_world not_found_world c
            (PInt 42) "WH_SMALL" None _ _ [descriptor "WH_BIG" "L"; nameless]
            init init _ _ _ _ _ _).
  - reflexivity.
  - discriminate.
  - reflexivity.
  - reflexivity.
  - reflexivity.
  - repeat constructor.
Defined.





(** The loops do raise on a listing item that is not an object. *)
Example scan_raises_on_non_descriptor :
  (find_matching [PDict nameless; PInt 3] "WH_SMALL" init).1
  = Raise AttributeError.
Proof. reflexivity. Qed.

(** An item after the match is not looked at. *)
Example scan_stops_at_match :
  (find_matching [PDict (descriptor "WH_SMALL" "S"); PInt 3] "WH_SMALL" init).1
  = Ok (Some (PDict (descriptor "WH_SMALL" "S"))).
Proof. reflexivity. Qed.

(** ** Runs of the two creation calls *)

Section Creation.
Variables (w : world) (c : config).

(** With a complete configuration, a readable key file and an answer [r],
    [create_snowflake_account] returns [r]; its output, its request and the
    dictionaries it built are these. *)
Lemma account_answered (key : string) (r : response) :
  nonempty (INSTANCE c) = true ->
  nonempty (PRIVATE_KEY_FILE c) = true ->
  read_file w (PRIVATE_KEY_FILE c) = Contents key ->
  send w (account_request w c key) = Answer r ->
  create_snowflake_account w c init
  = (Ok r, {| heap := account_heap c key;
              stdout := account_output w c r;
              http_log := [account_request w c key] |}).
Proof.
  intros Hi Hp Hf Hs.
  unfold create_snowflake_account, get_private_key_contents.
  rewrite Hi, Hp, Hf. mred.
  fold (account_payload c key). fold (account_request w c key).
  rewrite Hs. cbn. unfold account_output.
  by destruct (is_success (status_code r)).
Qed.

(** [create_byos_integration], called as [main] calls it, returns the
    answer [r] after printing and logging its request. *)
Lemma integration_answered (account_id : pyval) (r : response) (st : state) :
  send w (integration_request w c account_id) = Answer r ->
  create_byos_integration w c account_id None "" st
  = (Ok r, {| heap := heap st;
              stdout := stdout st ++ integration_output w c account_id r;
              http_log := http_log st ++ [integration_request w c account_id] |}).
Proof.
  intros Hs. unfold create_byos_integration. mred.
  fold (integration_payload w c account_id).
  fold (integration_request w c account_id).
  rewrite Hs. cbn. unfold integration_output, integration_announce.
  destruct (is_success (status_code r)); norm_out; reflexivity.
Qed.

(** Without an answer the call raises after logging its request. *)
Lemma integration_unanswered (account_id : pyval) (st : state) :
  send w (integration_request w c account_id) = NoAnswer ->
  create_byos_integration w c account_id None "" st
  = (Raise RequestException,
     {| heap := heap st;
        stdout := stdout st ++ integration_announce w c account_id;
        http_log := http_log st ++ [integration_request w c account_id] |}).
Proof.
  intros Hs. unfold create_byos_integration. mred.
  fold (integration_payload w c account_id).
  fold (integration_request w c account_id).
  rewrite Hs. cbn. unfold integration_announce. norm_out. reflexivity.
Qed.
End Creation.

(** ** Which requests a computation can add *)

Section Appends.
Context {A B : Type} (Q : request -> Prop).

Lemma appends_ret (a : A) : appends Q (ret a).
Proof. intros st. exists []. by rewrite app_nil_r. Qed.

Lemma appends_raise (e : exn) : appends Q (raise (A := A) e).
Proof. intros st. exists []. by rewrite app_nil_r. Qed.

Lemma appends_http (w : world) (r : request) : Q r -> appends Q (http w r).
Proof.
  intros Hr st. exists [r]. unfold http.
  destruct (send w r); cbn; auto.
Qed.

Lemma appends_bind (m : M A) (k : A -> M B) :
  appends Q m -> (forall a, appends Q (k a)) -> appends Q (bind m k).
Proof.
  intros Hm Hk st. unfold bind.
  destruct (Hm st) as (new1 & Hlog1 & HQ1).
  destruct (m st) as [[a|e] st1]; cbn in Hlog1.
  - destruct (Hk a st1) as (new2 & Hlog2 & HQ2).
    exists (new1 ++ new2). rewrite Hlog2, Hlog1, app_assoc.
    split; [done|]. by apply Forall_app.
  - by exists new1.
Qed.
End Appends.

Lemma appends_print (Q : request -> Prop) (s : string) : appends Q (print s).
Proof. intros st. exists []. by rewrite app_nil_r. Qed.

Lemma appends_print_json (Q : request -> Prop) (v : pyval) :
  appends Q (print_json v).
Proof. intros st. exists []. by rewrite app_nil_r. Qed.

(** Takes a monadic term apart along its binds and case distinctions; the
    requests it sends are left as goals. *)
Ltac appends_steps :=
  repeat first
    [ apply appends_ret | apply appends_raise | apply appends_print
    | apply appends_print_json
    | apply appends_bind; [|intros ?]
    | match goal with
      | |- appends _ (match ?x with _ => _ end) => destruct x
      end ].

Lemma appends_find_matching (Q : request -> Prop) (ws : list pyval)
    (name : string) :
  appends Q (find_matching ws name).
Proof.
  intros st. exists []. by rewrite find_matching_state, app_nil_r.
Qed.

Lemma appends_print_available (Q : request -> Prop) (w : world)
    (ws : list pyval) :
  appends Q (print_available w ws).
Proof.
  induction ws as [|wh ws IH]; cbn; unfold py_get; appends_steps; exact IH.
Qed.

(** The warehouse step sends a GET and a PUT at most, never a POST. *)
Lemma assign_appends (w : world) (c : config) (byos_id : pyval)
    (name : string) (activities : option (list string)) :
  appends (λ q, method q ≠ POST)
    (assign_warehouse_to_integration w c byos_id name activities).
Proof.
  unfold assign_warehouse_to_integration, get_available_warehouses,
    resp_json, py_len, py_iter, py_get, exit.
  appends_steps;
    first [ apply appends_http; discriminate
          | apply appends_find_matching
          | apply appends_print_available ].
Qed.

(** ** Runs of [main] *)

(** Runs [main] through its first stage, in either way the stage can
    produce the account identifier. *)
Ltac enter_main H :=
  unfold run, main;
  destruct H as [He0 | key0 ra0 da0 He0 Hi0 Hp0 Hf0 Hs0 Hok0 Hj0 Hid0];
  rewrite He0;
  [ mred
  | mred; rewrite (account_answered _ _ key0 ra0 Hi0 Hp0 Hf0 Hs0); mred;
    rewrite Hok0; mred; rewrite Hj0; mred; rewrite Hid0; mred ].

Lemma append_inv_head (s a b : string) : s +:+ a = s +:+ b -> a = b.
Proof.
  induction s as [|x s IH]; cbn; [done|]. intros H. injection H as H. auto.
Qed.

(** The two POST endpoints are different addresses. *)
Lemma urls_differ (c : config) : byos_accounts_url c ≠ accounts_url c.
Proof.
  unfold byos_accounts_url, accounts_url. intros H.
  do 2 apply append_inv_head in H. discriminate.
Qed.

(** With a supplied identifier the first request is the integration
    request, and no POST follows it. *)
Lemma main_existing_log (w : world) (c : config) :
  nonempty (EXISTING_ACCOUNT_ID c) = true ->
  exists rest,
    http_log (run w c).2
    = integration_request w c (PStr (EXISTING_ACCOUNT_ID c)) :: rest
    /\ Forall (λ q, method q ≠ POST) rest.
Proof.
  intros He. unfold run, main. rewrite He. mred.
  destruct (send w (integration_request w c (PStr (EXISTING_ACCOUNT_ID c))))
    as [rb|] eqn:Hs.
  2:{ rewrite (integration_unanswered _ _ _ _ Hs). by exists []. }
  rewrite (integration_answered _ _ _ _ _ Hs). mred.
  destruct (is_success (status_code rb)); cbn;
    [|by destruct (nonempty (WAREHOUSE_NAME c)); cbn; exists []].
  destruct (nonempty (WAREHOUSE_NAME c)); cbn; [|by exists []].
  destruct (json rb) as [[]|]; cbn; try by exists [].
  destruct (truthy _); cbn; [|by exists []].
  match goal with
  | |- context [assign_warehouse_to_integration ?w ?c ?i ?n ?a ?st] =>
      destruct (assign_appends w c i n a st) as (new & Hlog & Hnew);
      destruct (assign_warehouse_to_integration w c i n a st) as [[res|e] st']
  end; cbn in *; exists new; by rewrite Hlog.
Qed.

(** C3.  With a non-empty EXISTING_ACCOUNT_ID the first request [main]
    sends is the integration request, whose [serviceAccountId] is the
    configured identifier as it stands, and no request of the run is a POST
    to the account-creation address. *)
Theorem existing_account_skips_creation (w : world) (c : config) :
  nonempty (EXISTING_ACCOUNT_ID c) = true ->
  let sent := http_log (run w c).2 in
  (exists rest,
     sent = {| method := POST; url := byos_accounts_url c;
               headers := api_headers w;
               data := Some (PDict
                 [("engine", PStr "SNOWFLAKE");
                  ("properties", PDict
                     [config_entry "friendlyName"
                        (if nonempty (INTEGRATION_FRIENDLY_NAME c)
                         then INTEGRATION_FRIENDLY_NAME c else DISPLAY_NAME c);
                      config_entry "description" (INTEGRATION_DESCRIPTION c);
                      config_entry "serviceAccountId" (EXISTING_ACCOUNT_ID c);
                      config_entry "AUTH_METHOD" "KEY_PAIR";
                      config_entry "ADMIN_AUTH_METHOD" "KEY_PAIR"])]) |}
            :: rest)
  /\ Forall (λ q, ~ (method q = POST /\ url q = accounts_url c)) sent.
Proof.
  intros He sent. subst sent.
  destruct (main_existing_log w c He) as (rest & -> & Hrest).
  split; [by exists rest|].
  constructor.
  - cbn. intros [_ Hu]. by apply urls_differ in Hu.
  - eapply Forall_impl; [exact Hrest|]. cbn. intros q Hq [Hm _]. done.
Qed.

Lemma existing_account_skips_creation_witness :
  let c := demo_config "acct-9" "WH_SMALL" in
  let sent := http_log (run happy_world c).2 in
  (exists rest,
     sent = {| method := POST;
               url := "https://acme.example.com/api/query/v1/byos/accounts";
               headers := api_headers happy_world;
               data := Some (PDict
                 [("engine", PStr "SNOWFLAKE");
                  ("properties", PDict
                     [config_entry "friendlyName" "Snowflake";
                      config_entry "description" "";
                      config_entry "serviceAccountId" "acct-9";
                      config_entry "AUTH_METHOD" "KEY_PAIR";
                      config_entry "ADMIN_AUTH_METHOD" "KEY_PAIR"])]) |}
            :: rest)
  /\ Forall (λ q, ~ (method q = POST
                     /\ url q = "https://acme.example.com/api/data/v1/accounts"))
       sent.
Proof.
  intros c.
  refine (existing_account_skips_creation happy_world c _).
  reflexivity.
Defined.

(** C6.  When the first stage has produced the account identifier, the
    integration request is answered with a 2xx status and WAREHOUSE_NAME is
    empty, [main] ends normally (exit status 0) right after the integration
    request: the requests of the run are those of the first stage and the
    integration request, all of them POSTs, none a GET or a PUT. *)
Theorem no_warehouse_name_ends_after_integration (w : world) (c : config)
    (account_id : pyval) (log : list request) (r : response) :
  account_stage w c account_id log ->
  nonempty (WAREHOUSE_NAME c) = false ->
  send w (integration_request w c account_id) = Answer r ->
  is_2xx (status_code r) = true ->
  (run w c).1 = Ok tt
  /\ exit_status (run w c).1 = 0
  /\ http_log (run w c).2 = log ++ [integration_request w c account_id]
  /\ Forall (λ q, method q ≠ GET /\ method q ≠ PUT) (http_log (run w c).2).
Proof.
  intros Hst Hw Hs _.
  enter_main Hst.
  all: rewrite (integration_answered _ _ _ _ _ Hs); mred.
  all: rewrite Hw, andb_false_r; mred.
  all: repeat split; by repeat constructor.
Qed.

Lemma no_warehouse_name_ends_after_integration_witness :
  let c := demo_config "" "" in
  (run happy_world c).1 = Ok tt
  /\ exit_status (run happy_world c).1 = 0
  /\ http_log (run happy_world c).2
     = [account_request happy_world c "KEY-MATERIAL";
        integration_request happy_world c (PInt 7)]
  /\ Forall (λ q, method q ≠ GET /\ method q ≠ PUT)
       (http_log (run happy_world c).2).
Proof.
  intros c.
  refine (no_warehouse_name_ends_after_integration happy_world c (PInt 7)
            [account_request happy_world c "KEY-MATERIAL"] _ _ _ _ _).
  - refine (stage_created happy_world c "KEY-MATERIAL" _ [("id", PInt 7)]
              _ _ _ _ _ _ _ _); reflexivity.
  - reflexivity.
  - reflexivity.
  - reflexivity.
Defined.

(** ** Exit status *)

(** When no identifier is supplied and the first stage does not produce
    one, the process ends with status 1. *)
Lemma account_stage_missed (w : world) (c : config) :
  nonempty (EXISTING_ACCOUNT_ID c) = false ->
  ~ (exists account_id log, account_stage w c account_id log) ->
  exit_status (run w c).1 = 1.
Proof.
  intros He Hno. unfold run, main. rewrite He. mred.
  destruct (nonempty (INSTANCE c)) eqn:Hi;
    [|unfold create_snowflake_account; rewrite Hi; by mred].
  destruct (nonempty (PRIVATE_KEY_FILE c)) eqn:Hp;
    [|unfold create_snowflake_account; rewrite Hi, Hp; by mred].
  destruct (read_file w (PRIVATE_KEY_FILE c)) as [key| | |msg] eqn:Hf;
    try (unfold create_snowflake_account, get_private_key_contents;
         rewrite Hi, Hp, Hf; by mred).
  destruct (send w (account_request w c key)) as [ra|] eqn:Hs.
  2:{ unfold create_snowflake_account, get_private_key_contents.
      rewrite Hi, Hp, Hf. mred.
      fold (account_payload c key). fold (account_request w c key).
      by rewrite Hs. }
  rewrite (account_answered _ _ key ra Hi Hp Hf Hs). mred.
  destruct (is_success (status_code ra)) eqn:Hok; cbn; [|done].
  destruct (json ra) as [v|] eqn:Hj; cbn; [|done].
  destruct v as [| | | | | |d]; cbn; try done.
  destruct (truthy (dict_get d "id")) eqn:Hid; cbn; [|done].
  exfalso. apply Hno. eexists _, _. by eapply stage_created.
Qed.

(** ** The account answer without an identifier *)

(** C4, as the script has it.  With a complete configuration, when the
    account request is answered 200 or 201 with a JSON object whose [id] is
    absent or falsy, [main] prints the missing-identifier message last,
    exits with status 1, and the account request is the only request of the
    run: the integration request is not sent. *)
Theorem account_without_id_stops (w : world) (c : config) (key : string)
    (r : response) (d : dict) :
  nonempty (EXISTING_ACCOUNT_ID c) = false ->
  nonempty (INSTANCE c) = true ->
  nonempty (PRIVATE_KEY_FILE c) = true ->
  read_file w (PRIVATE_KEY_FILE c) = Contents key ->
  send w (account_request w c key) = Answer r ->
  is_success (status_code r) = true ->
  json r = Some (PDict d) ->
  truthy (dict_get d "id") = false ->
  (run w c).1 = Raise (SystemExit 1)
  /\ exit_status (run w c).1 = 1
  /\ last (stdout (run w c).2) = Some missing_id_error
  /\ http_log (run w c).2 = [account_request w c key].
Proof.
  intros He Hi Hp Hf Hs Hok Hj Hid.
  unfold run, main. rewrite He. mred.
  rewrite (account_answered _ _ key r Hi Hp Hf Hs). mred.
  rewrite Hok. mred. rewrite Hj. mred. rewrite Hid. mred.
  done.
Qed.

Lemma account_without_id_stops_witness :
  let c := demo_config "" "WH_SMALL" in
  (run no_id_world c).1 = Raise (SystemExit 1)
  /\ exit_status (run no_id_world c).1 = 1
  /\ last (stdout (run no_id_world c).2) = Some missing_id_error
  /\ http_log (run no_id_world c).2
     = [account_request no_id_world c "KEY-MATERIAL"].
Proof.
  intros c.
  refine (account_without_id_stops no_id_world c "KEY-MATERIAL" _
            [("name", PStr "sf_acct")] _ _ _ _ _ _ _ _); reflexivity.
Defined.

(** C4, counterexample to the statement as given: the account request is
    answered 202, a 2xx status, with an object without [id]; the
    missing-identifier message is not printed. *)
Lemma accepted_without_id_not_reported :
  let c := demo_config "" "WH_SMALL" in
  let w := accepted_world in
  exists r,
    send w (account_request w c "KEY-MATERIAL") = Answer r
    /\ is_2xx (status_code r) = true
    /\ json r = Some (PDict [])
    /\ ~ In missing_id_error (stdout (run w c).2).
Proof.
  intros c w. eexists. repeat split.
  vm_compute. intros H.
  repeat (destruct H as [H|H]; [discriminate H|]). exact H.
Qed.

(** ** The private key *)




(** ** The two end-to-end scenarios *)

(** The named warehouse is listed: four calls, in this order, each with the
    identifier the call before it returned. *)
Example four_calls_when_listed :
  let c := demo_config "" "WH_SMALL" in
  http_log (run happy_world c).2
  = [account_request happy_world c "KEY-MATERIAL";
     integration_request happy_world c (PInt 7);
     list_request happy_world c (PInt 42);
     put_request happy_world c (PInt 42) (descriptor "WH_SMALL" "S")
       ["query"; "index"; "dataflow"]]
  /\ exit_status (run happy_world c).1 = 0.
Proof. split; reflexivity. Qed.

(** The named warehouse is not listed: three calls, no PUT. *)
Example three_calls_when_not_listed :
  let c := demo_config "" "WH_SMALL" in
  method <$> http_log (run not_found_world c).2 = [POST; POST; GET]
  /\ exit_status (run not_found_world c).1 = 0.
Proof. split; reflexivity. Qed.

(** * Further properties of the script *)

(** ** What a computation can raise *)

Section OnlyRaises.
Context {A B : Type} (E : exn -> Prop).

Lemma only_raises_ret (a : A) : only_raises E (ret a).
Proof. intros st e H. discriminate H. Qed.

Lemma only_raises_raise (e : exn) : E e -> only_raises E (raise (A := A) e).
Proof. intros He st e' H. injection H as <-. exact He. Qed.

Lemma only_raises_bind (m : M A) (k : A -> M B) :
  only_raises E m -> (forall a, only_raises E (k a)) ->
  only_raises E (bind m k).
Proof.
  intros Hm Hk st e. unfold bind.
  destruct (m st) as [[a|e'] st1] eqn:Hrun; cbn.
  - apply Hk.
  - intros H. injection H as <-. apply (Hm st). by rewrite Hrun.
Qed.
End OnlyRaises.

Section OnlyRaisesPrimitives.
Context (E : exn -> Prop).

Lemma only_raises_print (s : string) : only_raises E (print s).
Proof. intros st e H. discriminate H. Qed.

Lemma only_raises_print_json (v : pyval) : only_raises E (print_json v).
Proof. intros st e H. discriminate H. Qed.

Lemma only_raises_http (w : world) (r : request) :
  E RequestException -> only_raises E (http w r).
Proof.
  intros He st e. unfold http. destruct (send w r); cbn; [done|].
  intros H. by injection H as <-.
Qed.

Lemma only_raises_new_dict (o : obj) : only_raises E (new_dict o).
Proof. intros st e H. discriminate H. Qed.

Lemma only_raises_dict_copy (l : loc) :
  E ValueError -> only_raises E (dict_copy l).
Proof.
  intros He st e. unfold dict_copy. destruct (heap st !! l); cbn; [done|].
  intros H. by injection H as <-.
Qed.

Lemma only_raises_getitem (l : loc) (k : string) :
  E ValueError -> E KeyError -> only_raises E (getitem l k).
Proof.
  intros He1 He2 st e. unfold getitem.
  destruct (heap st !! l) as [o|]; cbn; [destruct (assoc k o); cbn; [done|]|];
    intros H; by injection H as <-.
Qed.

Lemma only_raises_setitem (l : loc) (k : string) (v : hval) :
  E ValueError -> only_raises E (setitem l k v).
Proof.
  intros He st e. unfold setitem. destruct (heap st !! l); cbn; [done|].
  intros H. by injection H as <-.
Qed.

Lemma only_raises_json_dumps (v : hval) :
  E ValueError -> only_raises E (json_dumps v).
Proof.
  intros He st e. unfold json_dumps. destruct (reify _ _ _); cbn; [done|].
  intros H. by injection H as <-.
Qed.

Lemma only_raises_find_matching (ws : list pyval) (name : string) :
  E AttributeError -> only_raises E (find_matching ws name).
Proof.
  intros He. induction ws as [|wh ws IH]; cbn; [apply only_raises_ret|].
  apply only_raises_bind.
  - destruct wh; first [apply only_raises_ret | by apply only_raises_raise].
  - intros v. destruct (eq_str v name); [apply only_raises_ret|exact IH].
Qed.

Lemma only_raises_print_available (w : world) (ws : list pyval) :
  E AttributeError -> only_raises E (print_available w ws).
Proof.
  intros He. induction ws as [|wh ws IH]; cbn; [apply only_raises_ret|].
  apply only_raises_bind.
  - destruct wh; first [apply only_raises_ret | by apply only_raises_raise].
  - intros v. apply only_raises_bind; [apply only_raises_print|].
    intros _. exact IH.
Qed.
End OnlyRaisesPrimitives.

(** Takes a monadic term apart; the side conditions on the exceptions
    are closed by computation where they hold. *)
Ltac raises_steps :=
  repeat first
    [ apply only_raises_ret
    | apply only_raises_print
    | apply only_raises_print_json
    | apply only_raises_new_dict
    | apply only_raises_raise; exact I
    | apply only_raises_raise; reflexivity
    | apply only_raises_http; exact I
    | apply only_raises_dict_copy; exact I
    | apply only_raises_getitem; exact I
    | apply only_raises_setitem; exact I
    | apply only_raises_json_dumps; exact I
    | apply only_raises_find_matching; exact I
    | apply only_raises_print_available; exact I
    | apply only_raises_bind; [|intros ?]
    | match goal with
      | |- only_raises _ (match ?x with _ => _ end) => destruct x
      end ].

Ltac unfold_script :=
  unfold main, create_snowflake_account, get_private_key_contents,
    create_byos_integration, assign_warehouse_to_integration,
    get_available_warehouses, resp_json, py_len, py_iter, py_get, as_dict,
    exit.

(** Every [exit] of the script is [exit(1)]. *)
Lemma main_exits_with_one (w : world) (c : config) :
  only_raises exit_one (main w c).
Proof. unfold_script. raises_steps. Qed.

(** ** Exit status of any run *)

(** X1.  Every run ends with status 0 or 1: the script calls [exit] with
    1 only, and an uncaught exception gives 1. *)
Theorem exit_status_zero_or_one (w : world) (c : config) :
  exit_status (run w c).1 = 0 \/ exit_status (run w c).1 = 1.
Proof.
  unfold run. pose proof (main_exits_with_one w c init) as H.
  destruct (main w c init).1 as [u|e]; [by left|right].
  specialize (H e eq_refl). destruct e; cbn in *; done.
Qed.

Lemma integration_no_exit (w : world) (c : config) (account_id : pyval)
    (friendly_name : option string) (description : string) :
  only_raises no_exit
    (create_byos_integration w c account_id friendly_name description).
Proof. unfold_script. raises_steps. Qed.

Lemma assign_no_exit (w : world) (c : config) (byos_id : pyval)
    (name : string) (activities : option (list string)) :
  only_raises no_exit
    (assign_warehouse_to_integration w c byos_id name activities).
Proof. unfold_script. raises_steps. Qed.

(** X2.  Once the first stage has produced the account identifier, no
    call of [exit] follows: the run ends normally or with an uncaught
    exception, whatever the server answers. *)
Theorem no_exit_after_account_stage (w : world) (c : config)
    (account_id : pyval) (log : list request) :
  account_stage w c account_id log ->
  (run w c).1 = Ok tt
  \/ exists e, (run w c).1 = Raise e /\ no_exit e.
Proof.
  intros Hst. enter_main Hst.
  all: match goal with
       | |- context [create_byos_integration ?w ?c ?i ?f ?d ?st] =>
           pose proof (integration_no_exit w c i f d st) as Hb;
           destruct (create_byos_integration w c i f d st) as [[rb|e] st1]
       end; cbn in *; [|right; eauto].
  all: destruct (is_success (status_code rb)); cbn;
         [|destruct (nonempty (WAREHOUSE_NAME c)); cbn; by left].
  all: destruct (nonempty (WAREHOUSE_NAME c)); cbn; [|by left].
  all: destruct (json rb) as [v|]; cbn; [|right; by eexists].
  all: destruct v; cbn; try (right; by eexists).
  all: match goal with
       | |- context [truthy ?x] => destruct (truthy x)
       end; cbn; [|by left].
  all: match goal with
       | |- context [assign_warehouse_to_integration ?w ?c ?i ?n ?a ?st] =>
           pose proof (assign_no_exit w c i n a st) as Ha;
           destruct (assign_warehouse_to_integration w c i n a st)
             as [[res|e] st2]
       end; cbn in *; [by left|right; eauto].
Qed.

Lemma no_exit_after_account_stage_witness :
  let c := demo_config "acct-9" "WH_SMALL" in
  (run garbled_world c).1 = Ok tt
  \/ exists e, (run garbled_world c).1 = Raise e /\ no_exit e.
Proof.
  intros c.
  refine (no_exit_after_account_stage garbled_world c (PStr "acct-9") [] _).
  refine (stage_existing garbled_world c _). reflexivity.
Defined.

(** ** Exit status by stage *)

(** C1, as the script has it.  The process ends with status 1 when no
    identifier is supplied and the first stage does not produce one (a
    configuration check fails, the key file cannot be read, the account
    request is not answered 200 or 201 with an object holding a truthy
    [id]).  Once the identifier is there the script never calls [exit]:
    the status is 0 when the integration request is answered with a status
    other than 200 and 201; it is 0 when, after an integration answer that
    is an object with a truthy [id], the listing is answered with a status
    other than 200; it is 0 whatever status answers the assignment of a
    listed warehouse; and in every case the run ends normally, with status
    0, or with an uncaught exception that is not an exit (no answer, or a
    body that is not the JSON the script expects), never with an exit that
    a status code caused. *)
Theorem exit_status_by_stage (w : world) (c : config) :
  (nonempty (EXISTING_ACCOUNT_ID c) = false ->
   ~ (exists account_id log, account_stage w c account_id log) ->
   exit_status (run w c).1 = 1)
  /\ (forall account_id log rb,
        account_stage w c account_id log ->
        send w (integration_request w c account_id) = Answer rb ->
        is_success (status_code rb) = false ->
        exit_status (run w c).1 = 0)
  /\ (forall account_id log rb db rl,
        account_stage w c account_id log ->
        send w (integration_request w c account_id) = Answer rb ->
        is_success (status_code rb) = true ->
        json rb = Some (PDict db) ->
        truthy (dict_get db "id") = true ->
        nonempty (WAREHOUSE_NAME c) = true ->
        send w (list_request w c (dict_get db "id")) = Answer rl ->
        status_code rl ≠ 200 ->
        exit_status (run w c).1 = 0)
  /\ (forall account_id log rb db rl pre d post rp,
        account_stage w c account_id log ->
        send w (integration_request w c account_id) = Answer rb ->
        is_success (status_code rb) = true ->
        json rb = Some (PDict db) ->
        truthy (dict_get db "id") = true ->
        nonempty (WAREHOUSE_NAME c) = true ->
        send w (list_request w c (dict_get db "id")) = Answer rl ->
        status_code rl = 200 ->
        json rl = Some (PList ((PDict <$> pre) ++ PDict d :: post)) ->
        Forall (λ d', named (WAREHOUSE_NAME c) d' = false) pre ->
        named (WAREHOUSE_NAME c) d = true ->
        send w (put_request w c (dict_get db "id") d (WAREHOUSE_ACTIVITIES c))
        = Answer rp ->
        exit_status (run w c).1 = 0)
  /\ (forall account_id log,
        account_stage w c account_id log ->
        ((run w c).1 = Ok tt /\ exit_status (run w c).1 = 0)
        \/ (exists e, (run w c).1 = Raise e /\ no_exit e
                      /\ exit_status (run w c).1 = 1)).
Proof.
  split; [apply account_stage_missed|]. split; [|split; [|split]].
  - intros account_id log rb Hst Hs Hok.
    enter_main Hst.
    all: rewrite (integration_answered _ _ _ _ _ Hs); mred.
    all: rewrite Hok; cbn.
    all: by destruct (nonempty (WAREHOUSE_NAME c)).
  - intros account_id log rb db rl Hst Hs Hok Hj Hid Hwn Hl Hc.
    enter_main Hst.
    all: rewrite (integration_answered _ _ _ _ _ Hs); mred.
    all: rewrite Hok, Hwn; cbn; rewrite Hj; mred; rewrite Hid; mred.
    all: match goal with
         | |- context [assign_warehouse_to_integration ?w ?c ?i ?n ?a ?st] =>
             destruct (assign_listing_refused w c i n a rl st Hl Hc) as [out ->]
         end.
    all: reflexivity.
  - intros account_id log rb db rl pre d post rp
      Hst Hs Hok Hj Hid Hwn Hl Hc Hjl Hpre Hd Hput.
    enter_main Hst.
    all: rewrite (integration_answered _ _ _ _ _ Hs); mred.
    all: rewrite Hok, Hwn; cbn; rewrite Hj; mred; rewrite Hid; mred.
    all: match goal with
         | |- context [assign_warehouse_to_integration ?w ?c ?i ?n ?a ?st] =>
             destruct (assign_found w c i n a rl pre d post st Hl Hc Hjl Hpre Hd)
               as [out ->]
         end.
    all: cbn; rewrite Hput; reflexivity.
  - intros account_id log Hst.
    assert (forall e, no_exit e -> exit_status (Raise (A := unit) e) = 1)
      as Hone by (by intros []).
    enter_main Hst.
    all: match goal with
         | |- context [create_byos_integration ?w ?c ?i ?f ?d ?st] =>
             pose proof (integration_no_exit w c i f d st) as Hb;
             destruct (create_byos_integration w c i f d st) as [[rb|e] st1]
         end; cbn in *;
         [|right; exists e; split_and!; [done|by apply Hb|apply Hone; by apply Hb]].
    all: destruct (is_success (status_code rb)); cbn;
           [|destruct (nonempty (WAREHOUSE_NAME c)); cbn; by left].
    all: destruct (nonempty (WAREHOUSE_NAME c)); cbn; [|by left].
    all: destruct (json rb) as [v|]; cbn; [|right; eexists; by split_and!].
    all: destruct v; cbn; try (right; eexists; by split_and!).
    all: match goal with
         | |- context [truthy ?x] => destruct (truthy x)
         end; cbn; [|by left].
    all: match goal with
         | |- context [assign_warehouse_to_integration ?w ?c ?i ?n ?a ?st] =>
             pose proof (assign_no_exit w c i n a st) as Ha;
             destruct (assign_warehouse_to_integration w c i n a st)
               as [[res|e] st2]
         end; cbn in *;
         [by left
         |right; exists e; split_and!; [done|by apply Ha|apply Hone; by apply Ha]].
Qed.

(** C1, counterexample to the statement as given: the integration request
    is answered 500, and the process still ends with status 0. *)
Lemma refused_integration_exits_zero :
  let c := demo_config "" "WH_SMALL" in
  let w := refused_integration_world in
  Exists (λ q, exists a, send w q = Answer a /\ is_2xx (status_code a) = false)
    (http_log (run w c).2)
  /\ exit_status (run w c).1 = 0.
Proof.
  intros c w. split; [|reflexivity].
  apply Exists_exists. exists (integration_request w c (PInt 7)). split.
  - vm_compute. right. left.
  - eexists. split; reflexivity.
Qed.

Lemma exit_status_by_stage_witness :
  let c := demo_config "" "WH_SMALL" in
  exit_status (run no_key_world c).1 = 1
  /\ exit_status (run refused_integration_world c).1 = 0
  /\ exit_status (run refused_assignment_world c).1 = 0
  /\ (((run garbled_integration_world c).1 = Ok tt
       /\ exit_status (run garbled_integration_world c).1 = 0)
      \/ (exists e, (run garbled_integration_world c).1 = Raise e
                    /\ no_exit e
                    /\ exit_status (run garbled_integration_world c).1 = 1)).
Proof.
  intros c. split; [|split; [|split]].
  - refine (proj1 (exit_status_by_stage no_key_world c) _ _).
    + reflexivity.
    + intros (account_id & log & H). inversion H; discriminate.
  - refine (proj1 (proj2 (exit_status_by_stage refused_integration_world c))
              (PInt 7) [account_request refused_integration_world c "KEY-MATERIAL"]
              _ _ _ _).
    + refine (stage_created refused_integration_world c "KEY-MATERIAL" _
                [("id", PInt 7)] _ _ _ _ _ _ _ _); reflexivity.
    + reflexivity.
    + reflexivity.
  - refine (proj1 (proj2 (proj2 (proj2
              (exit_status_by_stage refused_assignment_world c))))
              (PInt 7) [account_request refused_assignment_world c "KEY-MATERIAL"]
              _ [("id", PInt 42)] _ [descriptor "WH_BIG" "L"]
              (descriptor "WH_SMALL" "S") [PDict (descriptor "WH_SMALL" "XL")] _
              _ _ _ _ _ _ _ _ _ _ _ _).
    + refine (stage_created refused_assignment_world c "KEY-MATERIAL" _
                [("id", PInt 7)] _ _ _ _ _ _ _ _); reflexivity.
    + reflexivity.
    + reflexivity.
    + reflexivity.
    + reflexivity.
    + reflexivity.
    + reflexivity.
    + reflexivity.
    + reflexivity.
    + repeat constructor.
    + reflexivity.
    + reflexivity.
  - refine (proj2 (proj2 (proj2 (proj2
              (exit_status_by_stage garbled_integration_world c))))
              (PInt 7)
              [account_request garbled_integration_world c "KEY-MATERIAL"] _).
    refine (stage_created garbled_integration_world c "KEY-MATERIAL" _
              [("id", PInt 7)] _ _ _ _ _ _ _ _); reflexivity.
Defined.


(** ** The checks before the account request *)

(** X3.  When INSTANCE or PRIVATE_KEY_FILE is empty,
    [create_snowflake_account] prints one message and exits with 1 from any
    state: it reads no file, builds no payload, prints no token and sends
    nothing, so the outcome is the same in every world.  INSTANCE is
    checked first.  A run without EXISTING_ACCOUNT_ID then ends with status
    1 and an empty request log. *)
Theorem config_check_stops_before_any_effect (w : world) (c : config)
    (st : state) :
  nonempty (INSTANCE c) = false \/ nonempty (PRIVATE_KEY_FILE c) = false ->
  create_snowflake_account w c st
  = (Raise (SystemExit 1),
     {| heap := heap st;
        stdout := stdout st ++
          [OutStr (if nonempty (INSTANCE c)
                   then "Error: PRIVATE_KEY_FILE is required. Please set it in the configuration section."
                   else "Error: INSTANCE is required. Please set it in the configuration section.")];
        http_log := http_log st |})
  /\ (nonempty (EXISTING_ACCOUNT_ID c) = false ->
      exit_status (run w c).1 = 1 /\ http_log (run w c).2 = []).
Proof.
  intros H.
  assert (create_snowflake_account w c st
          = (Raise (SystemExit 1),
             {| heap := heap st;
                stdout := stdout st ++
                  [OutStr (if nonempty (INSTANCE c)
                           then "Error: PRIVATE_KEY_FILE is required. Please set it in the configuration section."
                           else "Error: INSTANCE is required. Please set it in the configuration section.")];
                http_log := http_log st |})) as Hrun.
  { unfold create_snowflake_account.
    destruct (nonempty (INSTANCE c)) eqn:Hi; [|by mred].
    destruct H as [H|H]; [done|]. rewrite H. by mred. }
  split; [exact Hrun|].
  intros He. unfold run, main. rewrite He. mred.
  clear Hrun. unfold create_snowflake_account.
  destruct (nonempty (INSTANCE c)) eqn:Hi; [|by mred].
  destruct H as [H|H]; [done|]. rewrite H. by mred.
Qed.

Lemma config_check_stops_before_any_effect_witness :
  create_snowflake_account happy_world shipped_config init
  = (Raise (SystemExit 1),
     {| heap := [];
        stdout := [OutStr "Error: INSTANCE is required. Please set it in the configuration section."];
        http_log := [] |})
  /\ (nonempty (EXISTING_ACCOUNT_ID shipped_config) = false ->
      exit_status (run happy_world shipped_config).1 = 1
      /\ http_log (run happy_world shipped_config).2 = []).
Proof.
  refine (config_check_stops_before_any_effect happy_world shipped_config
            init _).
  left. reflexivity.
Defined.

(** X4.  With INSTANCE and PRIVATE_KEY_FILE set, a key file that cannot be
    read makes [create_snowflake_account] print one message and exit with
    1: no payload is built, the token is not printed and nothing is sent. *)
Theorem unreadable_key_stops_before_request (w : world) (c : config)
    (st : state) :
  nonempty (INSTANCE c) = true ->
  nonempty (PRIVATE_KEY_FILE c) = true ->
  (forall key, read_file w (PRIVATE_KEY_FILE c) ≠ Contents key) ->
  exists msg,
    create_snowflake_account w c st
    = (Raise (SystemExit 1),
       {| heap := heap st; stdout := stdout st ++ [OutStr msg];
          http_log := http_log st |}).
Proof.
  intros Hi Hp Hf.
  unfold create_snowflake_account, get_private_key_contents.
  rewrite Hi, Hp.
  destruct (read_file w (PRIVATE_KEY_FILE c)) as [key| | |msg];
    [by destruct (Hf key)|..]; mred; eexists; reflexivity.
Qed.

Lemma unreadable_key_stops_before_request_witness :
  exists msg,
    create_snowflake_account no_key_world (demo_config "" "WH_SMALL") init
    = (Raise (SystemExit 1),
       {| heap := []; stdout := [OutStr msg]; http_log := [] |}).
Proof.
  refine (unreadable_key_stops_before_request no_key_world
            (demo_config "" "WH_SMALL") init _ _ _).
  - reflexivity.
  - reflexivity.
  - intros key. discriminate.
Defined.

(** Without an answer [create_snowflake_account] raises after printing
    and logging its request. *)
Lemma account_unanswered (w : world) (c : config) (key : string) :
  nonempty (INSTANCE c) = true ->
  nonempty (PRIVATE_KEY_FILE c) = true ->
  read_file w (PRIVATE_KEY_FILE c) = Contents key ->
  send w (account_request w c key) = NoAnswer ->
  create_snowflake_account w c init
  = (Raise RequestException,
     {| heap := account_heap c key;
        stdout :=
          [OutStr (default "None" (getenv w "access_token"));
           OutStr ("Creating Snowflake account '" +:+ DISPLAY_NAME c
                   +:+ "' on " +:+ INSTANCE c +:+ "...");
           OutStr ("URL: " +:+ accounts_url c);
           OutStr "Payload (private key truncated):";
           OutJson (account_payload c HIDDEN)];
        http_log := [account_request w c key] |}).
Proof.
  intros Hi Hp Hf Hs.
  unfold create_snowflake_account, get_private_key_contents.
  rewrite Hi, Hp, Hf. mred.
  fold (account_payload c key). fold (account_request w c key).
  by rewrite Hs.
Qed.

(** X5.  Once the configuration checks pass and the key file is read, the
    first thing [create_snowflake_account] prints is the developer token
    as the environment holds it ([None] when unset), whether or not the
    server answers. *)
Theorem token_printed_first (w : world) (c : config) (key : string) :
  nonempty (INSTANCE c) = true ->
  nonempty (PRIVATE_KEY_FILE c) = true ->
  read_file w (PRIVATE_KEY_FILE c) = Contents key ->
  head (stdout (create_snowflake_account w c init).2)
  = Some (OutStr (match getenv w "access_token" with
                  | Some token => token
                  | None => "None"
                  end)).
Proof.
  intros Hi Hp Hf.
  destruct (send w (account_request w c key)) as [r|] eqn:Hs.
  - by rewrite (account_answered w c key r Hi Hp Hf Hs).
  - by rewrite (account_unanswered w c key Hi Hp Hf Hs).
Qed.

Lemma token_printed_first_witness :
  head (stdout (create_snowflake_account echo_world
                  (demo_config "" "WH_SMALL") init).2)
  = Some (OutStr "token").
Proof.
  refine (token_printed_first echo_world (demo_config "" "WH_SMALL")
            "KEY-MATERIAL" _ _ _); reflexivity.
Defined.

(** ** An account answer that is not an object *)

(** X6.  With a complete configuration, when the account request is
    answered 200 or 201 and the body is not a JSON object, [main] ends with
    an uncaught exception (JSONDecodeError for a body that is not JSON,
    AttributeError for a JSON value without [get]): status 1, and the
    account request is the only request sent. *)
Theorem account_body_not_object_crashes (w : world) (c : config)
    (key : string) (r : response) :
  nonempty (EXISTING_ACCOUNT_ID c) = false ->
  nonempty (INSTANCE c) = true ->
  nonempty (PRIVATE_KEY_FILE c) = true ->
  read_file w (PRIVATE_KEY_FILE c) = Contents key ->
  send w (account_request w c key) = Answer r ->
  is_success (status_code r) = true ->
  (forall d, json r ≠ Some (PDict d)) ->
  (run w c).1 = Raise (match json r with
                       | None => JSONDecodeError
                       | Some _ => AttributeError
                       end)
  /\ exit_status (run w c).1 = 1
  /\ http_log (run w c).2 = [account_request w c key].
Proof.
  intros He Hi Hp Hf Hs Hok Hj.
  unfold run, main. rewrite He. mred.
  rewrite (account_answered _ _ key r Hi Hp Hf Hs). mred.
  rewrite Hok. mred.
  destruct (json r) as [v|]; cbn; [|done].
  destruct v; cbn; try done. by destruct (Hj d).
Qed.

Lemma account_body_not_object_crashes_witness :
  let c := demo_config "" "WH_SMALL" in
  (run garbled_world c).1 = Raise JSONDecodeError
  /\ exit_status (run garbled_world c).1 = 1
  /\ http_log (run garbled_world c).2
     = [account_request garbled_world c "KEY-MATERIAL"].
Proof.
  intros c.
  refine (account_body_not_object_crashes garbled_world c "KEY-MATERIAL"
            {| status_code := 200; text := "<html>"; json := None |}
            _ _ _ _ _ _ _); try reflexivity.
  intros d. discriminate.
Defined.

(** ** The integration call *)

(** X7.  Whatever its arguments and whatever the server does,
    [create_byos_integration] sends exactly one request, a POST to the
    integrations address, and returns the answer as it is, of any status
    (it raises only when there is no answer).  In the property bag the
    friendly name is the caller's when one is given, even an empty one,
    and otherwise INTEGRATION_FRIENDLY_NAME or, when that is empty,
    DISPLAY_NAME; an empty description is replaced by
    INTEGRATION_DESCRIPTION; the account identifier is sent as [str] of it
    and both authentication methods are KEY_PAIR. *)
Theorem integration_request_contents (w : world) (c : config)
    (account_id : pyval) (friendly_name : option string)
    (description : string) (st : state) :
  let done :=
    create_byos_integration w c account_id friendly_name description st in
  exists q,
    http_log done.2 = http_log st ++ [q]
    /\ method q = POST
    /\ url q = byos_accounts_url c
    /\ headers q = api_headers w
    /\ done.1 = match send w q with
                | Answer a => Ok a
                | NoAnswer => Raise RequestException
                end
    /\ sent_property q "friendlyName"
       = PStr match friendly_name with
              | Some given => given
              | None => match INTEGRATION_FRIENDLY_NAME c with
                        | EmptyString => DISPLAY_NAME c
                        | configured => configured
                        end
              end
    /\ sent_property q "description"
       = PStr match description with
              | EmptyString => INTEGRATION_DESCRIPTION c
              | given => given
              end
    /\ sent_property q "serviceAccountId" = PStr (py_str w account_id)
    /\ sent_property q "AUTH_METHOD" = PStr "KEY_PAIR"
    /\ sent_property q "ADMIN_AUTH_METHOD" = PStr "KEY_PAIR".
Proof.
  intros done. subst done. unfold create_byos_integration. mred.
  match goal with
  | |- context [send w ?q] => exists q; destruct (send w q) as [a|]
  end; cbn.
  - destruct (is_success (status_code a)); cbn; repeat split;
      try (by destruct friendly_name as [n|];
             [|destruct (INTEGRATION_FRIENDLY_NAME c)]);
      by destruct description.
  - repeat split;
      try (by destruct friendly_name as [n|];
             [|destruct (INTEGRATION_FRIENDLY_NAME c)]);
      by destruct description.
Qed.

(** ** The end of [main] *)

(** X8.  When the integration request is answered with a status other
    than 200 and 201, [main] ends normally without a request to the
    warehouse address, whether WAREHOUSE_NAME is set or not. *)
Theorem refused_integration_sends_no_more (w : world) (c : config)
    (account_id : pyval) (log : list request) (r : response) :
  account_stage w c account_id log ->
  send w (integration_request w c account_id) = Answer r ->
  is_success (status_code r) = false ->
  (run w c).1 = Ok tt
  /\ http_log (run w c).2 = log ++ [integration_request w c account_id].
Proof.
  intros Hst Hs Hok. enter_main Hst.
  all: rewrite (integration_answered _ _ _ _ _ Hs); mred.
  all: rewrite Hok; cbn.
  all: by destruct (nonempty (WAREHOUSE_NAME c)).
Qed.

Lemma refused_integration_sends_no_more_witness :
  let c := demo_config "" "WH_SMALL" in
  let w := refused_integration_world in
  (run w c).1 = Ok tt
  /\ http_log (run w c).2
     = [account_request w c "KEY-MATERIAL"; integration_request w c (PInt 7)].
Proof.
  intros c w.
  refine (refused_integration_sends_no_more w c (PInt 7)
            [account_request w c "KEY-MATERIAL"] _ _ _ _).
  - refine (stage_created w c "KEY-MATERIAL" _ [("id", PInt 7)]
              _ _ _ _ _ _ _ _); reflexivity.
  - reflexivity.
  - reflexivity.
Defined.

(** X9.  When the integration is created (200 or 201) with an object whose
    [id] is absent or falsy and WAREHOUSE_NAME is set, [main] prints the
    message about the integration identifier last and ends normally, with
    status 0 and without a request to the warehouse address. *)
Theorem integration_without_id_ends_normally (w : world) (c : config)
    (account_id : pyval) (log : list request) (r : response) (d : dict) :
  account_stage w c account_id log ->
  send w (integration_request w c account_id) = Answer r ->
  is_success (status_code r) = true ->
  json r = Some (PDict d) ->
  truthy (dict_get d "id") = false ->
  nonempty (WAREHOUSE_NAME c) = true ->
  (run w c).1 = Ok tt
  /\ exit_status (run w c).1 = 0
  /\ last (stdout (run w c).2)
     = Some (OutStr "Error: Could not extract BYOS integration ID from response")
  /\ http_log (run w c).2 = log ++ [integration_request w c account_id].
Proof.
  intros Hst Hs Hok Hj Hid Hwn. enter_main Hst.
  all: rewrite (integration_answered _ _ _ _ _ Hs); mred.
  all: rewrite Hok, Hwn; cbn; rewrite Hj; mred; rewrite Hid; mred.
  all: repeat split.
  all: by rewrite !last_snoc.
Qed.

Lemma integration_without_id_ends_normally_witness :
  let c := demo_config "" "WH_SMALL" in
  let w := no_byos_id_world in
  (run w c).1 = Ok tt
  /\ exit_status (run w c).1 = 0
  /\ last (stdout (run w c).2)
     = Some (OutStr "Error: Could not extract BYOS integration ID from response")
  /\ http_log (run w c).2
     = [account_request w c "KEY-MATERIAL"; integration_request w c (PInt 7)].
Proof.
  intros c w.
  refine (integration_without_id_ends_normally w c (PInt 7)
            [account_request w c "KEY-MATERIAL"] _ [] _ _ _ _ _ _).
  - refine (stage_created w c "KEY-MATERIAL" _ [("id", PInt 7)]
              _ _ _ _ _ _ _ _); reflexivity.
  - reflexivity.
  - reflexivity.
  - reflexivity.
  - reflexivity.
  - reflexivity.
Defined.

(** X10.  When every step succeeds, the requests of the run are those of
    the first stage, then the integration request with the account
    identifier, the listing addressed to the identifier the integration
    answer holds, and the PUT to the same address, built from the first
    descriptor with the configured name and the configured activities. *)
Theorem identifiers_are_threaded (w : world) (c : config)
    (account_id : pyval) (log : list request) (rb rl : response)
    (db d : dict) (pre : list dict) (post : list pyval) :
  account_stage w c account_id log ->
  send w (integration_request w c account_id) = Answer rb ->
  is_success (status_code rb) = true ->
  json rb = Some (PDict db) ->
  truthy (dict_get db "id") = true ->
  nonempty (WAREHOUSE_NAME c) = true ->
  send w (list_request w c (dict_get db "id")) = Answer rl ->
  status_code rl = 200 ->
  json rl = Some (PList ((PDict <$> pre) ++ PDict d :: post)) ->
  Forall (λ d', named (WAREHOUSE_NAME c) d' = false) pre ->
  named (WAREHOUSE_NAME c) d = true ->
  let put := put_request w c (dict_get db "id") d (WAREHOUSE_ACTIVITIES c) in
  http_log (run w c).2
  = log ++ [integration_request w c account_id;
            list_request w c (dict_get db "id"); put]
  /\ sent_property (integration_request w c account_id) "serviceAccountId"
     = PStr (py_str w account_id)
  /\ url put = url (list_request w c (dict_get db "id"))
  /\ url put = "https://" +:+ INSTANCE c +:+ "/api/query/v1/byos/warehouses/"
               +:+ py_str w (dict_get db "id").
Proof.
  intros Hst Hs Hok Hj Hid Hwn Hl Hc Hjl Hpre Hd put. subst put.
  split; [|done].
  enter_main Hst.
  all: rewrite (integration_answered _ _ _ _ _ Hs); mred.
  all: rewrite Hok, Hwn; cbn; rewrite Hj; mred; rewrite Hid; mred.
  all: match goal with
       | |- context [assign_warehouse_to_integration ?w ?c ?i ?n ?a ?st] =>
           destruct (assign_found w c i n a rl pre d post st Hl Hc Hjl Hpre Hd)
             as [out ->]
       end.
  all: match goal with
       | |- context [send ?x (put_request ?a ?b ?i ?e ?f)] =>
           destruct (send x (put_request a b i e f))
       end; by cbn.
Qed.

Lemma identifiers_are_threaded_witness :
  let c := demo_config "" "WH_SMALL" in
  let w := happy_world in
  let put := put_request w c (PInt 42) (descriptor "WH_SMALL" "S")
               ["query"; "index"; "dataflow"] in
  http_log (run w c).2
  = [account_request w c "KEY-MATERIAL"; integration_request w c (PInt 7);
     list_request w c (PInt 42); put]
  /\ sent_property (integration_request w c (PInt 7)) "serviceAccountId"
     = PStr "7"
  /\ url put = url (list_request w c (PInt 42))
  /\ url put = "https://acme.example.com/api/query/v1/byos/warehouses/42".
Proof.
  intros c w.
  refine (identifiers_are_threaded w c (PInt 7)
            [account_request w c "KEY-MATERIAL"] _ _ [("id", PInt 42)]
            (descriptor "WH_SMALL" "S") [descriptor "WH_BIG" "L"]
            [PDict (descriptor "WH_SMALL" "XL")] _ _ _ _ _ _ _ _ _ _ _).
  - refine (stage_created w c "KEY-MATERIAL" _ [("id", PInt 7)]
              _ _ _ _ _ _ _ _); reflexivity.
  - reflexivity.
  - reflexivity.
  - reflexivity.
  - reflexivity.
  - reflexivity.
  - reflexivity.
  - reflexivity.
  - reflexivity.
  - repeat constructor.
  - reflexivity.
Defined.

(** ** The listing *)

(** X11.  [get_available_warehouses] sends exactly one request, the GET,
    whatever happens next.  An answer with a status other than 200 (also
    201) gives [None]; an answer 200 with a JSON list gives that list, in
    the order and with the duplicates the server sent. *)
Theorem listing_returns_the_servers_list (w : world) (c : config)
    (byos_id : pyval) (st : state) :
  let done := get_available_warehouses w c byos_id st in
  http_log done.2 = http_log st ++ [list_request w c byos_id]
  /\ (forall r, send w (list_request w c byos_id) = Answer r ->
                status_code r ≠ 200 -> done.1 = Ok PNone)
  /\ (forall r l, send w (list_request w c byos_id) = Answer r ->
                  status_code r = 200 -> json r = Some (PList l) ->
                  done.1 = Ok (PList l)).
Proof.
  intros done. subst done. unfold get_available_warehouses. mred.
  fold (list_request w c byos_id).
  destruct (send w (list_request w c byos_id)) as [a|]; cbn.
  - destruct (Z.eqb_spec (status_code a) 200) as [Hc|Hc]; cbn.
    + split; [|split].
      * destruct (json a) as [v|]; cbn; [|done]. by destruct v.
      * intros r Hr. by injection Hr as <-.
      * intros r l Hr _ Hj. injection Hr as <-. by rewrite Hj.
    + split; [done|]. split; [done|].
      intros r l Hr Hc'. by injection Hr as <-.
  - done.
Qed.

(** X12.  When the listing is answered 200 with a body that is not JSON,
    or with a JSON value that has no length (null, a boolean, a number),
    [assign_warehouse_to_integration] raises (JSONDecodeError, TypeError)
    after the GET and sends no PUT; a JSON null is not taken for the
    [None] of a failed listing. *)
Theorem unsized_listing_raises (w : world) (c : config) (byos_id : pyval)
    (name : string) (activities : option (list string)) (r : response)
    (st : state) :
  send w (list_request w c byos_id) = Answer r ->
  status_code r = 200 ->
  match json r with Some v => has_len v = false | None => True end ->
  let done := assign_warehouse_to_integration w c byos_id name activities st in
  done.1 = Raise (match json r with
                  | None => JSONDecodeError
                  | Some _ => TypeError
                  end)
  /\ http_log done.2 = http_log st ++ [list_request w c byos_id].
Proof.
  intros Hs Hc Hj done. subst done.
  unfold assign_warehouse_to_integration, get_available_warehouses.
  mred. fold (list_request w c byos_id). rewrite Hs. mred. rewrite Hc. mred.
  destruct (json r) as [v|]; cbn; [|done].
  by destruct v.
Qed.

Lemma unsized_listing_raises_witness :
  let c := demo_config "" "WH_SMALL" in
  let done := assign_warehouse_to_integration null_listing_world c (PInt 42)
                "WH_SMALL" None init in
  done.1 = Raise TypeError
  /\ http_log done.2 = [list_request null_listing_world c (PInt 42)].
Proof.
  intros c.
  refine (unsized_listing_raises null_listing_world c (PInt 42) "WH_SMALL"
            None {| status_code := 200; text := "null"; json := Some PNone |}
            init _ _ _); reflexivity.
Defined.

(** X13.  When the listing is answered 200 with a non-empty JSON object
    (a list wrapped in an object, say), the scan runs over its keys,
    which are strs without [get]: [assign_warehouse_to_integration] raises
    AttributeError after the GET and sends no PUT, whatever the name. *)
Theorem object_listing_raises (w : world) (c : config) (byos_id : pyval)
    (name : string) (activities : option (list string)) (r : response)
    (k : string) (v : pyval) (d : dict) (st : state) :
  send w (list_request w c byos_id) = Answer r ->
  status_code r = 200 ->
  json r = Some (PDict ((k, v) :: d)) ->
  let done := assign_warehouse_to_integration w c byos_id name activities st in
  done.1 = Raise AttributeError
  /\ http_log done.2 = http_log st ++ [list_request w c byos_id].
Proof.
  intros Hs Hc Hj done. subst done.
  unfold assign_warehouse_to_integration, get_available_warehouses.
  mred. fold (list_request w c byos_id). rewrite Hs. mred. rewrite Hc. mred.
  rewrite Hj. by mred.
Qed.

Lemma object_listing_raises_witness :
  let c := demo_config "" "WH_SMALL" in
  let done := assign_warehouse_to_integration wrapped_listing_world c
                (PInt 42) "WH_SMALL" None init in
  done.1 = Raise AttributeError
  /\ http_log done.2 = [list_request wrapped_listing_world c (PInt 42)].
Proof.
  intros c.
  refine (object_listing_raises wrapped_listing_world c (PInt 42) "WH_SMALL"
            None _ "warehouses" (PList [PDict (descriptor "WH_SMALL" "S")])
            [] init _ _ _); reflexivity.
Defined.

(** ** The scan on any list *)

(** The shape of the list behind each outcome of the scan. *)
Lemma scan_shape (ws : list pyval) (name : string) (st : state) :
  match (find_matching ws name st).1 with
  | Ok (Some wh) =>
      exists pre d post,
        ws = (PDict <$> pre) ++ PDict d :: post /\ wh = PDict d
        /\ Forall (λ d', named name d' = false) pre /\ named name d = true
  | Ok None =>
      exists ds, ws = PDict <$> ds /\ Forall (λ d, named name d = false) ds
  | Raise e =>
      e = AttributeError
      /\ exists pre x post,
           ws = (PDict <$> pre) ++ x :: post
           /\ Forall (λ d', named name d' = false) pre
           /\ is_object x = false
  end.
Proof.
  induction ws as [|wh ws IH]; cbn.
  { by exists []. }
  destruct wh as [|b|z|f|s|l|d];
    [ split; [done|]; by exists [], PNone, ws
    | split; [done|]; by exists [], (PBool b), ws
    | split; [done|]; by exists [], (PInt z), ws
    | split; [done|]; by exists [], (PFloat f), ws
    | split; [done|]; by exists [], (PStr s), ws
    | split; [done|]; by exists [], (PList l), ws
    | ].
  mred. fold (named name d).
  destruct (named name d) eqn:Hd.
  { cbn. by exists [], d, ws. }
  destruct (find_matching ws name st) as [[[wh|]|e] st'] eqn:Hrun;
    cbn in IH |- *.
  - destruct IH as (pre & d' & post & -> & -> & Hpre & Hd').
    exists (d :: pre), d', post. split_and!; [done|done|by constructor|done].
  - destruct IH as (ds & -> & Hds). exists (d :: ds).
    split; [done|]. by constructor.
  - destruct IH as (-> & pre & x & post & -> & Hpre & Hx).
    split; [done|]. exists (d :: pre), x, post.
    split_and!; [done|by constructor|done].
Qed.

(** An item that is not an object, before any object with the name, makes
    the scan raise. *)
Lemma find_matching_raises (pre : list dict) (x : pyval) (post : list pyval)
    (name : string) (st : state) :
  Forall (λ d', named name d' = false) pre ->
  is_object x = false ->
  find_matching ((PDict <$> pre) ++ x :: post) name st
  = (Raise AttributeError, st).
Proof.
  intros Hpre Hx. unfold named in *.
  induction Hpre as [|d' pre Hd' _ IH]; cbn; mred.
  - by destruct x.
  - rewrite Hd'. exact IH.
Qed.

(** X14.  The three outcomes of the scan over any list of JSON values.
    It returns an item exactly when the list is a run of objects without
    the name, then an object with the name (the item), then anything; it
    returns nothing exactly when every item is an object without the
    name; it raises, AttributeError, exactly when an item that is not an
    object comes before any object with the name. *)
Theorem scan_outcomes (ws : list pyval) (name : string) (st : state) :
  (forall wh,
     (find_matching ws name st).1 = Ok (Some wh)
     <-> exists pre d post,
           ws = (PDict <$> pre) ++ PDict d :: post /\ wh = PDict d
           /\ Forall (λ d', named name d' = false) pre
           /\ named name d = true)
  /\ ((find_matching ws name st).1 = Ok None
      <-> exists ds,
            ws = PDict <$> ds /\ Forall (λ d, named name d = false) ds)
  /\ (forall e,
        (find_matching ws name st).1 = Raise e
        <-> e = AttributeError
            /\ exists pre x post,
                 ws = (PDict <$> pre) ++ x :: post
                 /\ Forall (λ d', named name d' = false) pre
                 /\ is_object x = false).
Proof.
  pose proof (scan_shape ws name st) as Hshape.
  split; [|split].
  - intros wh. split.
    + intros Hrun. by rewrite Hrun in Hshape.
    + intros (pre & d & post & -> & -> & Hpre & Hd).
      by rewrite find_matching_first.
  - split.
    + intros Hrun. by rewrite Hrun in Hshape.
    + intros (ds & -> & Hds). by rewrite find_matching_none.
  - intros e. split.
    + intros Hrun. by rewrite Hrun in Hshape.
    + intros (-> & pre & x & post & -> & Hpre & Hx).
      by rewrite find_matching_raises.
Qed.

(** ** The requests of the warehouse step *)

(** The requests of the warehouse step: the GET, then one PUT at most. *)
Lemma assign_requests (w : world) (c : config)
    (byos_id : pyval) (name : string) (activities : option (list string))
    (st : state) :
  exists rest,
    http_log (assign_warehouse_to_integration w c byos_id name activities st).2
    = http_log st ++ list_request w c byos_id :: rest
    /\ (rest = []
        \/ exists d,
             rest = [put_request w c byos_id d
                       (default (WAREHOUSE_ACTIVITIES c) activities)]).
Proof.
  unfold assign_warehouse_to_integration, get_available_warehouses.
  mred. fold (list_request w c byos_id).
  destruct (send w (list_request w c byos_id)) as [rl|]; cbn;
    [|exists []; by split; [|left]].
  destruct (status_code rl =? 200)%Z; cbn; [|exists []; by split; [|left]].
  destruct (json rl) as [v|]; cbn; [|exists []; by split; [|left]].
  destruct v; cbn; try (exists []; by split; [|left]).
  all: match goal with
       | |- context [find_matching ?ws ?n ?s] =>
           pose proof (find_matching_state n ws s) as Hst;
           destruct (find_matching ws n s) as [[[mw|]|e] st']
       end; cbn in Hst; subst st'; cbn; [| |exists []; by split; [|left]].
  all: try match goal with
       | |- context [print_available ?x ?ws ?s] =>
           destruct (appends_print_available (λ _, False) x ws s)
             as (new & Hlog & Hnew);
           destruct (print_available x ws s) as [[u|e] st'];
           cbn in Hlog |- *; rewrite Hlog;
           (destruct new as [|q new]; [|by inversion Hnew]);
           exists []; rewrite app_nil_r; by split; [|left]
       end.
  all: destruct mw as [| | | | | |d0]; cbn; try (exists []; by split; [|left]).
  all: fold (put_request w c byos_id d0
               (default (WAREHOUSE_ACTIVITIES c) activities)).
  all: destruct (send w (put_request _ _ _ _ _)) as [a|]; cbn;
         [destruct (is_success (status_code a)); cbn|].
  all: eexists; rewrite <- app_assoc; cbn; split; [reflexivity|];
         right; by eexists.
Qed.

(** X15.  Whatever the server does, the requests
    [assign_warehouse_to_integration] adds are the GET and then at most
    one PUT.  A PUT is sent only when the GET was answered 200 with a JSON
    list, and it is built from the first object of that list that carries
    the name, with the activities given or configured, to the address of
    the GET: no PUT without the GET before it, never two. *)
Theorem assign_sends_get_then_one_put (w : world) (c : config)
    (byos_id : pyval) (name : string) (activities : option (list string))
    (st : state) :
  exists rest,
    http_log (assign_warehouse_to_integration w c byos_id name activities st).2
    = http_log st ++ list_request w c byos_id :: rest
    /\ (rest = []
        \/ exists r pre d post,
             send w (list_request w c byos_id) = Answer r
             /\ status_code r = 200
             /\ json r = Some (PList ((PDict <$> pre) ++ PDict d :: post))
             /\ Forall (λ d', named name d' = false) pre
             /\ named name d = true
             /\ In (PDict d) ((PDict <$> pre) ++ PDict d :: post)
             /\ rest = [{| method := PUT;
                           url := url (list_request w c byos_id);
                           headers := api_headers w;
                           data := Some (assignment_payload
                             (dict_get d "deviceName")
                             (dict_get d "warehouse")
                             (dict_get d "device")
                             (dict_get d "instanceSize")
                             (dict_get d "warehouseSizeFriendlyName")
                             (default (WAREHOUSE_ACTIVITIES c) activities)) |}]).
Proof.
  destruct (send w (list_request w c byos_id)) as [rl|] eqn:Hs.
  2:{ exists []. split; [|by left].
      unfold assign_warehouse_to_integration, get_available_warehouses.
      mred. fold (list_request w c byos_id). by rewrite Hs. }
  destruct (Z.eq_dec (status_code rl) 200) as [Hc|Hc].
  2:{ destruct (assign_listing_refused w c byos_id name activities rl st Hs Hc)
        as [out ->].
      exists []. split; [done|by left]. }
  destruct (json rl) as [v|] eqn:Hj.
  2:{ exists []. split; [|by left].
      unfold assign_warehouse_to_integration, get_available_warehouses.
      mred. fold (list_request w c byos_id). rewrite Hs. mred.
      rewrite Hc. mred. by rewrite Hj. }
  destruct v as [|b|z|f|s|l|dd];
    try (exists []; split; [|by left];
         unfold assign_warehouse_to_integration, get_available_warehouses;
         mred; fold (list_request w c byos_id); rewrite Hs; mred;
         rewrite Hc; mred; by rewrite Hj).
  - (* a str: its characters have no get *)
    exists []. split; [|by left].
    unfold assign_warehouse_to_integration, get_available_warehouses.
    mred. fold (list_request w c byos_id). rewrite Hs. mred.
    rewrite Hc. mred. rewrite Hj. mred.
    by destruct (String.list_ascii_of_string s).
  - (* a list *)
    pose proof (scan_shape l name) as Hshape.
    unfold assign_warehouse_to_integration, get_available_warehouses.
    mred. fold (list_request w c byos_id). rewrite Hs. mred.
    rewrite Hc. mred. rewrite Hj. mred.
    match goal with
    | |- context [find_matching l name ?s] =>
        specialize (Hshape s);
        pose proof (find_matching_state name l s) as Hst;
        destruct (find_matching l name s) as [[[mw|]|e] st']
    end; cbn in Hshape, Hst; subst st'; cbn.
    + destruct Hshape as (pre & d & post & -> & -> & Hpre & Hd). mred.
      match goal with
      | |- context [send w ?q] => destruct (send w q) as [a|]
      end; cbn; [destruct (is_success (status_code a)); cbn|].
      all: eexists; rewrite <- app_assoc; cbn; split; [reflexivity|].
      all: right; exists rl, pre, d, post; split_and!; try done.
      all: apply in_or_app; right; by left.
    + destruct Hshape as (ds & -> & Hds).
      rewrite print_available_dicts. cbn.
      exists []. split; [done|by left].
    + exists []. split; [done|by left].
  - (* an object: its keys have no get *)
    exists []. split; [|by left].
    unfold assign_warehouse_to_integration, get_available_warehouses.
    mred. fold (list_request w c byos_id). rewrite Hs. mred.
    rewrite Hc. mred. rewrite Hj. mred.
    by destruct dd.
Qed.

(** ** The requests of a whole run *)

Section AppendsHeap.
Context (Q : request -> Prop).

Lemma appends_new_dict (o : obj) : appends Q (new_dict o).
Proof. intros st. exists []. by rewrite app_nil_r. Qed.

Lemma appends_dict_copy (l : loc) : appends Q (dict_copy l).
Proof.
  intros st. exists []. unfold dict_copy.
  destruct (heap st !! l); by rewrite app_nil_r.
Qed.

Lemma appends_getitem (l : loc) (k : string) : appends Q (getitem l k).
Proof.
  intros st. exists []. unfold getitem.
  destruct (heap st !! l) as [o|]; [destruct (assoc k o)|];
    by rewrite app_nil_r.
Qed.

Lemma appends_setitem (l : loc) (k : string) (v : hval) :
  appends Q (setitem l k v).
Proof.
  intros st. exists []. unfold setitem.
  destruct (heap st !! l); by rewrite app_nil_r.
Qed.

Lemma appends_json_dumps (v : hval) : appends Q (json_dumps v).
Proof.
  intros st. exists []. unfold json_dumps.
  destruct (reify _ _ _); by rewrite app_nil_r.
Qed.
End AppendsHeap.

(** As [appends_steps], for the whole script. *)
Ltac appends_all :=
  repeat first
    [ apply appends_ret | apply appends_raise | apply appends_print
    | apply appends_print_json | apply appends_new_dict
    | apply appends_dict_copy | apply appends_getitem
    | apply appends_setitem | apply appends_json_dumps
    | apply appends_find_matching | apply appends_print_available
    | apply appends_bind; [|intros ?]
    | match goal with
      | |- appends _ (match ?x with _ => _ end) => destruct x
      end ].

(** X16.  Every request of every run carries the two headers of the
    script, the JSON content type and the developer token as the
    environment holds it, and goes to an address under
    https://INSTANCE/api/. *)
Theorem every_request_well_addressed (w : world) (c : config) :
  Forall (λ q, headers q
               = [("Content-Type", Some "application/json");
                  ("X-Domo-Developer-Token", getenv w "access_token")]
               /\ exists path,
                    url q = "https://" +:+ INSTANCE c +:+ "/api/" +:+ path)
    (http_log (run w c).2).
Proof.
  assert (appends (well_addressed w c) (main w c)) as H.
  { unfold_script. appends_all.
    all: apply appends_http; split; [reflexivity|eexists; reflexivity]. }
  destruct (H init) as (new & Hlog & Hnew). unfold run. by rewrite Hlog.
Qed.

(** The account call sends its request or nothing, and it returns only
    after sending it. *)
Lemma account_requests (w : world) (c : config) :
  let done := create_snowflake_account w c init in
  (exists key, http_log done.2 = [account_request w c key])
  \/ (http_log done.2 = [] /\ exists e, done.1 = Raise e).
Proof.
  cbn.
  destruct (nonempty (INSTANCE c)) eqn:Hi;
    [|right; unfold create_snowflake_account; rewrite Hi; mred; by eauto].
  destruct (nonempty (PRIVATE_KEY_FILE c)) eqn:Hp;
    [|right; unfold create_snowflake_account; rewrite Hi, Hp; mred;
      by eauto].
  destruct (read_file w (PRIVATE_KEY_FILE c)) as [key| | |msg] eqn:Hf;
    try (right; unfold create_snowflake_account, get_private_key_contents;
         rewrite Hi, Hp, Hf; mred; by eauto).
  left. exists key.
  destruct (send w (account_request w c key)) as [r|] eqn:Hs.
  - by rewrite (account_answered w c key r Hi Hp Hf Hs).
  - by rewrite (account_unanswered w c key Hi Hp Hf Hs).
Qed.

(** The integration call of [main] sends its request, answered or not. *)
Lemma integration_log (w : world) (c : config) (account_id : pyval)
    (st : state) :
  http_log (create_byos_integration w c account_id None "" st).2
  = http_log st ++ [integration_request w c account_id].
Proof.
  destruct (send w (integration_request w c account_id)) as [r|] eqn:Hs.
  - by rewrite (integration_answered w c account_id r st Hs).
  - by rewrite (integration_unanswered w c account_id st Hs).
Qed.

(** Closes a goal on the methods of a log the hypotheses describe. *)
Ltac close_log :=
  repeat match goal with
         | H : http_log _ = _ |- _ => rewrite H; clear H
         end;
  cbn; eexists; reflexivity.

(** What [main] sends after its first stage: the integration request,
    then the requests of the warehouse step or nothing. *)
Ltac main_tail :=
  match goal with
  | |- context [create_byos_integration ?w ?c ?i ?f ?d ?st] =>
      let Hb := fresh "Hb" in
      let rb := fresh "rb" in
      pose proof (integration_log w c i st) as Hb;
      destruct (create_byos_integration w c i f d st) as [[rb|?] ?];
      cbn in Hb; mred; [|close_log];
      destruct (is_success (status_code rb)); mred;
        [|destruct (nonempty (WAREHOUSE_NAME c)); mred; close_log];
      destruct (nonempty (WAREHOUSE_NAME c)); mred;
        [|close_log];
      destruct (json rb) as [[]|]; mred; try (close_log);
      match goal with
      | |- context [truthy ?x] => destruct (truthy x)
      end; mred; [|close_log];
      match goal with
      | |- context [assign_warehouse_to_integration ?w' ?c' ?i' ?n ?a ?st'] =>
          let Ha := fresh "Ha" in
          destruct (assign_requests w' c' i' n a st')
            as (? & Ha & [->|[? ->]]);
          destruct (assign_warehouse_to_integration w' c' i' n a st')
            as [[?|?] ?];
          cbn in Ha; mred; close_log
      end
  end.

(** X17.  In every run the requests follow the order account POST,
    integration POST, GET, PUT and stop at any point of it: at most four
    requests (three with EXISTING_ACCOUNT_ID), no request repeated, no
    later request without the earlier ones. *)
Theorem requests_follow_the_workflow (w : world) (c : config) :
  method <$> http_log (run w c).2
  `prefix_of` (if nonempty (EXISTING_ACCOUNT_ID c)
               then [POST; GET; PUT] else [POST; POST; GET; PUT]).
Proof.
  unfold run, main. destruct (nonempty (EXISTING_ACCOUNT_ID c)).
  - mred. main_tail.
  - mred.
    destruct (account_requests w c) as [[key Hlog]|[Hlog [e' He']]];
      destruct (create_snowflake_account w c init) as [[ra|e] st0];
      cbn in *; try done; mred; try (close_log).
    destruct (is_success (status_code ra)); mred; [|close_log].
    destruct (json ra) as [v|]; mred; [|close_log].
    destruct v; mred; try (close_log).
    match goal with
    | |- context [truthy ?x] => destruct (truthy x)
    end; mred; [|close_log].
    main_tail.
Qed.

(** ** What a supplied identifier skips *)

Section Files.
Variables (w : world) (c : config) (files : string -> file_result).

(** The enumeration looks at the world for [repr] only. *)
Lemma print_available_files (ws : list pyval) (st : state) :
  print_available (with_files w files) ws st = print_available w ws st.
Proof.
  revert st. induction ws as [|wh ws IH]; intros st; [reflexivity|].
  cbn. mred. destruct wh; cbn; try reflexivity. apply IH.
Qed.

Lemma integration_files (account_id : pyval) (friendly_name : option string)
    (description : string) (st : state) :
  create_byos_integration (with_files w files) c account_id friendly_name
    description st
  = create_byos_integration w c account_id friendly_name description st.
Proof. reflexivity. Qed.

Lemma assign_files (byos_id : pyval) (name : string)
    (activities : option (list string)) (st : state) :
  assign_warehouse_to_integration (with_files w files) c byos_id name
    activities st
  = assign_warehouse_to_integration w c byos_id name activities st.
Proof.
  unfold assign_warehouse_to_integration, get_available_warehouses.
  unfold api_headers, warehouses_url, py_str. mred.
  destruct (send w _) as [rl|]; cbn; [|reflexivity].
  destruct (status_code rl =? 200)%Z; cbn; [|reflexivity].
  destruct (json rl) as [v|]; cbn; [|reflexivity].
  destruct v; cbn; try reflexivity.
  all: match goal with
       | |- context [find_matching ?ws ?n ?s] =>
           destruct (find_matching ws n s) as [[[mw|]|e] st']
       end; cbn; try reflexivity.
  all: by rewrite print_available_files.
Qed.
End Files.

(** X18.  With a non-empty EXISTING_ACCOUNT_ID the key file is not read:
    the run, its outcome, its output and its requests, is the same
    whatever the file system holds. *)
Theorem existing_account_reads_no_file (w : world) (c : config)
    (files : string -> file_result) :
  nonempty (EXISTING_ACCOUNT_ID c) = true ->
  run (with_files w files) c = run w c.
Proof.
  intros He. unfold run, main. rewrite He. mred.
  rewrite integration_files.
  match goal with
  | |- context [create_byos_integration ?x ?y ?i ?f ?d ?st] =>
      destruct (create_byos_integration x y i f d st) as [[rb|e] st1]
  end; cbn; [|reflexivity].
  destruct (is_success (status_code rb)); cbn; [|reflexivity].
  destruct (nonempty (WAREHOUSE_NAME c)); cbn; [|reflexivity].
  destruct (json rb) as [[]|]; cbn; try reflexivity.
  match goal with
  | |- context [truthy ?x] => destruct (truthy x)
  end; cbn; [|reflexivity].
  by rewrite assign_files.
Qed.

Lemma existing_account_reads_no_file_witness :
  run (with_files happy_world (fun _ => FileNotFound))
      (demo_config "acct-9" "WH_SMALL")
  = run happy_world (demo_config "acct-9" "WH_SMALL").
Proof.
  refine (existing_account_reads_no_file happy_world
            (demo_config "acct-9" "WH_SMALL") (fun _ => FileNotFound) _).
  reflexivity.
Defined.

(** X19.  The configuration checks belong to the account call.  With a
    non-empty EXISTING_ACCOUNT_ID and an empty INSTANCE the script prints
    no configuration error: it announces the integration and calls
    [requests.post] on the address without a host; when that call raises,
    the run ends there with an uncaught exception, exit status 1. *)
Theorem existing_account_skips_instance_check (w : world) (c : config) :
  nonempty (EXISTING_ACCOUNT_ID c) = true ->
  INSTANCE c = "" ->
  send w (integration_request w c (PStr (EXISTING_ACCOUNT_ID c))) = NoAnswer ->
  url (integration_request w c (PStr (EXISTING_ACCOUNT_ID c)))
  = "https:///api/query/v1/byos/accounts"
  /\ (run w c).1 = Raise RequestException
  /\ exit_status (run w c).1 = 1
  /\ http_log (run w c).2
     = [integration_request w c (PStr (EXISTING_ACCOUNT_ID c))]
  /\ stdout (run w c).2
     = [OutStr banner; OutStr "USING EXISTING ACCOUNT"; OutStr banner;
        OutStr ("Using existing account ID: " +:+ EXISTING_ACCOUNT_ID c);
        OutStr (nl +:+ banner); OutStr "CREATING BYOS INTEGRATION";
        OutStr banner;
        OutStr (nl +:+ "Creating BYOS integration '"
                +:+ (if nonempty (INTEGRATION_FRIENDLY_NAME c)
                     then INTEGRATION_FRIENDLY_NAME c else DISPLAY_NAME c)
                +:+ "' on ...");
        OutStr "URL: https:///api/query/v1/byos/accounts";
        OutStr "Payload:";
        OutJson (integration_payload w c (PStr (EXISTING_ACCOUNT_ID c)))]
  /\ ~ In instance_error (stdout (run w c).2).
Proof.
  intros He Hi Hs.
  assert (url (integration_request w c (PStr (EXISTING_ACCOUNT_ID c)))
          = "https:///api/query/v1/byos/accounts") as Hurl.
  { cbn. unfold byos_accounts_url. by rewrite Hi. }
  split; [exact Hurl|].
  unfold run, main. rewrite He. mred.
  rewrite (integration_unanswered _ _ _ _ Hs). cbn.
  unfold integration_announce, byos_accounts_url. rewrite Hi.
  split_and!; try reflexivity.
  intros H. unfold instance_error in H.
  repeat (destruct H as [H|H]; [by vm_compute in H|]). exact H.
Qed.

Lemma existing_account_skips_instance_check_witness :
  (run unreachable_world hostless_config).1 = Raise RequestException
  /\ exit_status (run unreachable_world hostless_config).1 = 1
  /\ ~ In instance_error (stdout (run unreachable_world hostless_config).2).
Proof.
  pose proof (existing_account_skips_instance_check unreachable_world
                hostless_config eq_refl eq_refl eq_refl)
    as (_ & Hrun & Hexit & _ & _ & Hout).
  exact (conj Hrun (conj Hexit Hout)).
Defined.
